(** * LoggerCSV: a buffered CSV logger writing to a mounted SD card

    Shallow embedding of [src/core/sd_logger.py].  The logger object and the
    filesystem it writes to are threaded through a small state-and-exception
    monad; every [os]/file call is recorded in a trace so that statements
    such as "no file is written" can be read off the final state. *)

From stdpp Require Import gmap strings list.
From Stdlib Require Import Ascii ZArith Lia.

Open Scope Z_scope.

(** ** Strings as Python uses them *)

Module Str.

(** The line feed character, ["\n"] in the source. *)
Definition LF : ascii := Ascii.ascii_of_nat 10.
Definition nl : string := String LF "".

(** [sep.join(items)] *)
Fixpoint join (sep : string) (items : list string) : string :=
  match items with
  | [] => ""
  | [x] => x
  | x :: rest => x +:+ sep +:+ join sep rest
  end.

(** [sub in s] on strings: some suffix of [s] starts with [sub]. *)
Fixpoint str_in (sub s : string) : bool :=
  String.prefix sub s ||
  match s with
  | "" => false
  | String _ s' => str_in sub s'
  end.

(** What a reader gets back from a text file when iterating over its
    lines with the terminators stripped: every line feed ends a line, and
    an unterminated tail counts as a last line. *)
Fixpoint readlines (s : string) : list string :=
  match s with
  | "" => []
  | String c s' =>
      if Ascii.eqb c LF then "" :: readlines s'
      else match readlines s' with
           | [] => [String c ""]
           | l :: ls => String c l :: ls
           end
  end.

(** The first [k] characters of [s]: what is left of a text whose writing
    was cut short. *)
Fixpoint take (k : nat) (s : string) : string :=
  match k, s with
  | S k', String c s' => String c (take k' s')
  | _, _ => ""
  end.

(** The text of a block of newline-terminated lines. *)
Fixpoint lines_text (rs : list string) : string :=
  match rs with
  | [] => ""
  | r :: rest => r +:+ nl +:+ lines_text rest
  end.

End Str.

(** ** The filesystem the logger runs against *)

Module OS.

Inductive node := Dir | File (content : string).

Inductive mode := mode_w | mode_a.

(** Calls that reach the operating system, in the order they are made. *)
Inductive syscall :=
| sys_stat (path : string)
| sys_open (path : string) (m : mode)
| sys_write (path : string) (data : string)
| sys_close (path : string)
| sys_mount (path : string).

(** [open_fails] and [write_fails] are the paths on which the device
    reports an error when a file is opened, resp. written: the fault
    model for an unreliable card.  A refused write need not be clean:
    [write_budget] gives, per path, how many characters of the data reach
    the file before the error (none when the path is not listed, all of
    them when the budget covers the data, as when the error only shows
    once the data is through). *)
Record world := World {
  nodes : gmap string node;
  open_fails : gset string;
  write_fails : gset string;
  write_budget : gmap string nat;
  trace : list syscall
}.

Definition log (c : syscall) (w : world) : world :=
  World (nodes w) (open_fails w) (write_fails w) (write_budget w)
        (trace w ++ [c]).

Definition set_node (p : string) (n : node) (w : world) : world :=
  World (<[p := n]> (nodes w)) (open_fails w) (write_fails w) (write_budget w)
        (trace w).

(** The number of characters a refused write to [p] lets through. *)
Definition budget (w : world) (p : string) : nat :=
  default 0%nat (write_budget w !! p).

(** The text stored at [p]; empty when there is no regular file there. *)
Definition content (w : world) (p : string) : string :=
  match nodes w !! p with
  | Some (File c) => c
  | _ => ""
  end.

End OS.

(** ** Exceptions and the monad of methods *)

Inductive exn :=
| SDNotMountedError (msg : string)
| InvalideRecordError (msg : string)
| OSError.

Inductive result (A : Type) :=
| Return (a : A)
| Raise (e : exn).
Arguments Return {A} a.
Arguments Raise {A} e.

Definition M (S A : Type) : Type := S -> result A * S.

Definition ret {S A} (a : A) : M S A := fun s => (Return a, s).

Definition raise {S A} (e : exn) : M S A := fun s => (Raise e, s).

Definition bind {S A B} (m : M S A) (k : A -> M S B) : M S B :=
  fun s =>
    match m s with
    | (Return a, s') => k a s'
    | (Raise e, s') => (Raise e, s')
    end.

(** [try: m except OSError: h] *)
Definition try_except_OSError {S A} (m : M S A) (h : M S A) : M S A :=
  fun s =>
    match m s with
    | (Raise OSError, s') => h s'
    | r => r
    end.

(** [body] followed by [cleanup] whether or not [body] raised, as the exit
    of a [with] block does. *)
Definition finally {S A} (body : M S A) (cleanup : M S unit) : M S A :=
  fun s =>
    match body s with
    | (r, s') =>
        match cleanup s' with
        | (Return _, s'') => (r, s'')
        | (Raise e, s'') => (Raise e, s'')
        end
    end.

Notation "'let*' x ':=' m 'in' k" := (bind m (fun x => k))
  (at level 10, x name, m at level 100, k at level 200).

Module Sys.
Import OS.

(** [os.stat(path)]: raises [OSError] when nothing is at [path]. *)
Definition os_stat (path : string) : M world unit :=
  fun w =>
    let w := log (sys_stat path) w in
    match nodes w !! path with
    | Some _ => (Return tt, w)
    | None => (Raise OSError, w)
    end.

(** [open(path, mode)]: both modes create a missing file, ["w"] empties an
    existing one.  The handle is the path. *)
Definition open (path : string) (m : mode) : M world string :=
  fun w =>
    let w := log (sys_open path m) w in
    if decide (path ∈ open_fails w) then (Raise OSError, w)
    else match nodes w !! path, m with
         | Some Dir, _ => (Raise OSError, w)
         | Some (File c), mode_a => (Return path, w)
         | Some (File c), mode_w => (Return path, set_node path (File "") w)
         | None, _ => (Return path, set_node path (File "") w)
         end.

(** [file.write(data)]: a refused write raises after as much of [data]
    as the device let through has been added to the file. *)
Definition write (file : string) (data : string) : M world unit :=
  fun w =>
    let w := log (sys_write file data) w in
    match nodes w !! file with
    | Some (File c) =>
        if decide (file ∈ write_fails w)
        then (Raise OSError,
              set_node file (File (c +:+ Str.take (budget w file) data)) w)
        else (Return tt, set_node file (File (c +:+ data)) w)
    | _ => (Raise OSError, w)
    end.

Definition close (file : string) : M world unit :=
  fun w => (Return tt, log (sys_close file) w).

(** [with open(path, mode) as file: file.write(data)] *)
Definition with_open_write (path : string) (m : mode) (data : string)
  : M world unit :=
  let* file := open path m in
  finally (write file data) (close file).

(** [uos.mount(vfs, path)] of [src/main.py]: the card appears as a
    directory.  The logger itself never calls it. *)
Definition uos_mount (path : string) : M world unit :=
  fun w => (Return tt, set_node path Dir (log (sys_mount path) w)).

End Sys.

(** ** The logger object *)

Import OS.

Record LoggerCSV := {
  file_name : string;
  sd_mountpoint : string;
  file_path : string;
  csv_headers : option (list string);
  delimiter : string;
  buffer_size : Z;
  buffer : list string
}.

Definition with_buffer (b : list string) (self : LoggerCSV) : LoggerCSV :=
  {| file_name := file_name self;
     sd_mountpoint := sd_mountpoint self;
     file_path := file_path self;
     csv_headers := csv_headers self;
     delimiter := delimiter self;
     buffer_size := buffer_size self;
     buffer := b |}.

(** A method runs on the object it is called on and on the filesystem. *)
Definition state : Type := LoggerCSV * world.

Definition get_self : M state LoggerCSV := fun s => (Return (fst s), s).

Definition set_buffer (b : list string) : M state unit :=
  fun s => (Return tt, (with_buffer b (fst s), snd s)).

Definition io {A} (m : M world A) : M state A :=
  fun s =>
    match m (snd s) with
    | (r, w') => (r, (fst s, w'))
    end.

(** [gc.collect()] has no effect on the object or on the filesystem. *)
Definition gc_collect {S} : M S unit := ret tt.

Definition _verify_sd_mounted : M state unit :=
  let* self := get_self in
  try_except_OSError
    (io (Sys.os_stat (sd_mountpoint self)))
    (raise (SDNotMountedError
              ("Mount point '" +:+ sd_mountpoint self +:+ "' not found"))).

Definition _file_exists : M state bool :=
  let* self := get_self in
  try_except_OSError
    (let* _ := io (Sys.os_stat (file_path self)) in ret true)
    (ret false).

Definition _create_csv_with_headers : M state unit :=
  let* self := get_self in
  let* found := _file_exists in
  if found || bool_decide (csv_headers self = None) then ret tt
  else
    match csv_headers self with
    | Some headers =>
        io (Sys.with_open_write (file_path self) mode_w
              (Str.join (delimiter self) headers +:+ Str.nl))
    | None => ret tt
    end.

Definition _post_init : M state unit :=
  let* _ := _verify_sd_mounted in
  _create_csv_with_headers.

Definition default_sd_mountpoint : string := "sd".
Definition default_buffer_size : Z := 60.

(** The constructor: the new object is returned only when [_post_init]
    did not raise. *)
Definition __init__ (file_name sd_mountpoint : string) (buffer_size : Z)
    (csv_headers : option (list string)) : M world LoggerCSV :=
  fun w =>
    let self :=
      {| file_name := file_name;
         sd_mountpoint := sd_mountpoint;
         file_path := sd_mountpoint +:+ "/" +:+ file_name;
         csv_headers := csv_headers;
         delimiter := ";";
         buffer_size := buffer_size;
         buffer := [] |} in
    match _post_init (self, w) with
    | (Return _, (self', w')) => (Return self', w')
    | (Raise e, (_, w')) => (Raise e, w')
    end.

Definition _buffer_full : M state bool :=
  let* self := get_self in
  ret (Z.of_nat (length (buffer self)) >=? buffer_size self).

Definition _add_record_to_buffer (record : string) : M state unit :=
  let* self := get_self in
  set_buffer (buffer self ++ [record]).

Definition _serialize_buffer : M state string :=
  let* self := get_self in
  let buffer_serialized := Str.join Str.nl (buffer self) +:+ Str.nl in
  let* _ := set_buffer [] in
  ret buffer_serialized.

Definition _write_buffer_to_file : M state unit :=
  let* serialized_buffer := _serialize_buffer in
  let* self := get_self in
  let* _ := io (Sys.with_open_write (file_path self) mode_a serialized_buffer) in
  gc_collect.

Definition _validate_record (record : string) : M state unit :=
  if Str.str_in Str.nl record
  then raise (InvalideRecordError "Record cannot contain newline characters")
  else ret tt.

Definition write_record_with_buffer (record : string) : M state unit :=
  let* _ := _add_record_to_buffer record in
  let* full := _buffer_full in
  let* _ := (if full then _write_buffer_to_file else ret tt) in
  gc_collect.

Definition write_record (record : string) : M state unit :=
  let* self := get_self in
  io (Sys.with_open_write (file_path self) mode_a (record +:+ Str.nl)).

Definition __del__ : M state unit :=
  let* self := get_self in
  match buffer self with
  | [] => ret tt
  | _ :: _ => _write_buffer_to_file
  end.

(** A run of buffered writes, one call per record, stopping at the first
    call that raises. *)
Fixpoint write_all (records : list string) : M state unit :=
  match records with
  | [] => ret tt
  | r :: rest => let* _ := write_record_with_buffer r in write_all rest
  end.

(** ** Vocabulary of the statements *)

(** The device accepts an append to [p]: no fault on opening or writing,
    and [p] is not a directory. *)
Definition writable (w : world) (p : string) : bool :=
  bool_decide (p ∉ open_fails w) && bool_decide (p ∉ write_fails w) &&
  match nodes w !! p with
  | Some Dir => false
  | _ => true
  end.

(** The filesystem after one successful open-append, write, close of
    [data] on [p]. *)
Definition appended (p data : string) (w : world) : world :=
  World (<[p := File (content w p +:+ data)]> (nodes w))
        (open_fails w) (write_fails w) (write_budget w)
        (trace w ++ [sys_open p mode_a; sys_write p data; sys_close p]).

(** The filesystem after a successful open-truncate, write, close of
    [data] on [p]. *)
Definition created (p data : string) (w : world) : world :=
  World (<[p := File data]> (nodes w))
        (open_fails w) (write_fails w) (write_budget w)
        (trace w ++ [sys_open p mode_w; sys_write p data; sys_close p]).

(** The object the constructor builds from its arguments. *)
Definition new_logger (file_name sd_mountpoint : string) (buffer_size : Z)
    (csv_headers : option (list string)) : LoggerCSV :=
  {| file_name := file_name;
     sd_mountpoint := sd_mountpoint;
     file_path := sd_mountpoint +:+ "/" +:+ file_name;
     csv_headers := csv_headers;
     delimiter := ";";
     buffer_size := buffer_size;
     buffer := [] |}.

(** The calls made between an earlier world and a later one. *)
Definition events_since (w w' : world) : list syscall :=
  drop (length (trace w)) (trace w').

(** The data written, with the file it went to, in order. *)
Fixpoint writes_of (evs : list syscall) : list (string * string) :=
  match evs with
  | [] => []
  | sys_write p d :: rest => (p, d) :: writes_of rest
  | _ :: rest => writes_of rest
  end.

Definition is_mount (c : syscall) : bool :=
  match c with
  | sys_mount _ => true
  | _ => false
  end.

(** The mount calls made so far. *)
Definition mounts (w : world) : list syscall := List.filter is_mount (trace w).

(** A computation leaves an observation of its state as it found it,
    however it ends. *)
Definition preserves {S A O : Type} (obs : S → O) (m : M S A) : Prop :=
  ∀ s, obs (snd (m s)) = obs s.

Definition state_mounts (s : state) : list syscall := mounts (snd s).

Definition newline_free (r : string) : Prop := Str.str_in Str.nl r = false.

(** The test [_buffer_full] makes right after the append of [r]. *)
Definition full_after (lg : LoggerCSV) (r : string) : bool :=
  Z.of_nat (length (buffer lg ++ [r])) >=? buffer_size lg.

(** The public operations, and the states a caller sees between them.  A
    call that raises leaves the state as it was when the exception left
    the method; the caller may go on using the object. *)
Inductive call :=
| call_write_record_with_buffer (record : string)
| call_write_record (record : string)
| call_del.

Definition invoke (c : call) : M state unit :=
  match c with
  | call_write_record_with_buffer r => write_record_with_buffer r
  | call_write_record r => write_record r
  | call_del => __del__
  end.

Fixpoint boundaries (calls : list call) (s : state) : list state :=
  s :: match calls with
       | [] => []
       | c :: rest => boundaries rest (snd (invoke c s))
       end.

(** The buffer holds no more than [cap] records, [cap] being the capacity
    the object was built with. *)
Definition occupancy_ok (cap : Z) (s : state) : Prop :=
  buffer_size (fst s) = cap ∧ Z.of_nat (length (buffer (fst s))) ≤ cap.

(** The only ways a write call ends: normally, or with the device's error. *)
Definition normal_or_OSError (r : result unit) : Prop :=
  r = Return tt ∨ r = Raise OSError.

(** The number of line feeds in a string. *)
Fixpoint count_lf (s : string) : nat :=
  match s with
  | "" => 0
  | String c s' => (if Ascii.eqb c Str.LF then 1 else 0) + count_lf s'
  end.

(** A run of public calls made one after the other, stopping at the first
    one that raises. *)
Fixpoint run_calls (calls : list call) : M state unit :=
  match calls with
  | [] => ret tt
  | c :: rest => let* _ := invoke c in run_calls rest
  end.

(** The records a run of calls submits, in call order. *)
Fixpoint records_of (calls : list call) : list string :=
  match calls with
  | [] => []
  | call_write_record_with_buffer r :: rest => r :: records_of rest
  | call_write_record r :: rest => r :: records_of rest
  | call_del :: rest => records_of rest
  end.

(** How many of [n] records submitted by buffered writes at capacity [c]
    have gone to the file: those of the whole blocks. *)
Definition flushed_count (c : Z) (n : nat) : nat :=
  Z.to_nat (c * (Z.of_nat n / c)).

(** The line the constructor writes for the given headers, if any. *)
Definition header_lines (delimiter : string) (headers : option (list string))
    : list string :=
  match headers with
  | Some cols => [Str.join delimiter cols]
  | None => []
  end.

(** Only the buffer may differ between two views of the same object. *)
Definition same_settings (a b : LoggerCSV) : Prop :=
  file_name a = file_name b ∧ sd_mountpoint a = sd_mountpoint b ∧
  file_path a = file_path b ∧ csv_headers a = csv_headers b ∧
  delimiter a = delimiter b ∧ buffer_size a = buffer_size b.

(** ** Sample objects *)

(** A mounted, empty, healthy card. *)
Definition card : world := World {[ "sd" := Dir ]} ∅ ∅ ∅ [].

(** The same card refusing writes to the log file, after letting five
    characters through. *)
Definition worn_card : world :=
  World {[ "sd" := Dir ]} ∅ {[ "sd/sensor.csv" ]} {[ "sd/sensor.csv" := 5%nat ]} [].

(** The healthy card after the first construction of the logger of
    [src/main.py]. *)
Definition card_with_header : world :=
  created "sd/sensor.csv" ("date;value" +:+ Str.nl)
    (log (sys_stat "sd/sensor.csv") (log (sys_stat "sd") card)).

(** The logger of [src/main.py], as the constructor leaves it. *)
Definition sensor_logger : LoggerCSV :=
  {| file_name := "sensor.csv";
     sd_mountpoint := "sd";
     file_path := "sd/sensor.csv";
     csv_headers := Some ["date"; "value"];
     delimiter := ";";
     buffer_size := 3;
     buffer := [] |}.

(** * Properties *)

(** ** Strings *)

Section string_facts.

Lemma append_nil_l (b : string) : "" +:+ b = b.
Proof. reflexivity. Qed.

Lemma append_cons (x : ascii) (a b : string) :
  String x a +:+ b = String x (a +:+ b).
Proof. reflexivity. Qed.

Lemma append_assoc (a b c : string) : (a +:+ b) +:+ c = a +:+ b +:+ c.
Proof.
  induction a as [|x a IH]; [done |]. by rewrite !append_cons, IH.
Qed.

Lemma append_nil_r (a : string) : a +:+ "" = a.
Proof.
  induction a as [|x a IH]; [done |]. by rewrite append_cons, IH.
Qed.

(** A single-character needle is found exactly when it heads a suffix. *)
Lemma str_in_nl_cons (c : ascii) (s : string) :
  Str.str_in Str.nl (String c s) = Ascii.eqb c Str.LF || Str.str_in Str.nl s.
Proof.
  cbn. destruct (ascii_dec Str.LF c) as [<-|Hne].
  - rewrite Ascii.eqb_refl. by destruct s.
  - apply Ascii.eqb_neq in Hne. rewrite Ascii.eqb_sym in Hne.
    by rewrite Hne.
Qed.

Lemma join_cons_cons (sep x y : string) (l : list string) :
  Str.join sep (x :: y :: l) = x +:+ sep +:+ Str.join sep (y :: l).
Proof. done. Qed.

(** Joining with line feeds and closing with one more is the same as
    terminating every record, provided there is a record at all. *)
Lemma join_nl_lines_text (rs : list string) :
  rs ≠ [] → Str.join Str.nl rs +:+ Str.nl = Str.lines_text rs.
Proof.
  induction rs as [|r rs IH]; [done | intros _].
  destruct rs as [|r' rs].
  - cbn. by rewrite append_nil_r.
  - rewrite join_cons_cons.
    change (Str.lines_text (r :: r' :: rs))
      with (r +:+ Str.nl +:+ Str.lines_text (r' :: rs)).
    rewrite <- IH by done. by rewrite !append_assoc.
Qed.

Lemma lines_text_app (xs ys : list string) :
  Str.lines_text (xs ++ ys) = Str.lines_text xs +:+ Str.lines_text ys.
Proof.
  induction xs as [|x xs IH]; [done |].
  cbn [app Str.lines_text]. by rewrite IH, !append_assoc.
Qed.

Lemma lines_text_snoc (xs : list string) (r : string) :
  Str.lines_text (xs ++ [r]) = Str.lines_text xs +:+ r +:+ Str.nl.
Proof. rewrite lines_text_app. cbn. by rewrite append_nil_r. Qed.

Lemma readlines_line (r rest : string) :
  Str.str_in Str.nl r = false →
  Str.readlines (r +:+ Str.nl +:+ rest) = r :: Str.readlines rest.
Proof.
  induction r as [|c r IH]; intros Hr.
  - done.
  - rewrite str_in_nl_cons in Hr. apply orb_false_iff in Hr as [Hc Hr].
    rewrite append_cons. cbn [Str.readlines]. by rewrite Hc, (IH Hr).
Qed.

(** Reading back a block of terminated, newline-free records gives the
    records. *)
Lemma readlines_lines_text (rs : list string) :
  Forall (λ r, Str.str_in Str.nl r = false) rs →
  Str.readlines (Str.lines_text rs) = rs.
Proof.
  induction 1 as [|r rs Hr _ IH]; [done |].
  cbn [Str.lines_text]. by rewrite (readlines_line _ _ Hr), IH.
Qed.

End string_facts.

(** ** The filesystem calls *)

Section filesystem.

Lemma writable_inv (w : world) (p : string) :
  writable w p = true →
  (p ∉ open_fails w) ∧ (p ∉ write_fails w) ∧ nodes w !! p ≠ Some Dir.
Proof.
  unfold writable. rewrite !andb_true_iff, !bool_decide_eq_true.
  intros [[Ho Hw] Hd]. repeat split; [done | done |].
  intros Heq. by rewrite Heq in Hd.
Qed.

Lemma with_open_write_append (w : world) (p d : string) :
  writable w p = true →
  Sys.with_open_write p mode_a d w = (Return tt, appended p d w).
Proof.
  intros (Ho & Hw & Hd)%writable_inv.
  unfold Sys.with_open_write, bind, finally, Sys.open, Sys.write, Sys.close,
    appended, content.
  cbn. rewrite !decide_False by done.
  destruct (nodes w !! p) as [[|c]|] eqn:Hp; [done | |]; cbn.
  - rewrite Hp. cbn. rewrite decide_False by done. cbn.
    unfold set_node, log. cbn. by rewrite <- !app_assoc.
  - rewrite lookup_insert_eq. cbn. rewrite decide_False by done. cbn.
    unfold set_node, log. cbn.
    by rewrite insert_insert_eq, <- !app_assoc.
Qed.

Lemma appended_content (w : world) (p d : string) :
  content (appended p d w) p = content w p +:+ d.
Proof. unfold content at 1, appended. cbn. by rewrite lookup_insert_eq. Qed.

Lemma appended_writable (w : world) (p d : string) :
  writable w p = true → writable (appended p d w) p = true.
Proof.
  intros (Ho & Hw & Hd)%writable_inv. unfold writable, appended. cbn.
  rewrite lookup_insert_eq.
  by rewrite !bool_decide_eq_true_2.
Qed.

Lemma appended_events (w : world) (p d : string) :
  events_since w (appended p d w)
  = [sys_open p mode_a; sys_write p d; sys_close p].
Proof. unfold events_since, appended. cbn. by rewrite drop_app_length. Qed.

Lemma take_0 (s : string) : Str.take 0 s = "".
Proof. by destruct s. Qed.

(** When the device does not accept the append, the [with] block raises,
    and the file has gained at most the start of the data. *)
Lemma with_open_write_append_fails (w : world) (p d : string) :
  writable w p = false →
  ∃ w' k, Sys.with_open_write p mode_a d w = (Raise OSError, w')
          ∧ content w' p = content w p +:+ Str.take k d.
Proof.
  intros Hnw.
  unfold Sys.with_open_write, bind, finally, Sys.open, Sys.write, Sys.close.
  cbn. destruct (decide (p ∈ open_fails w)) as [Ho|Ho].
  { eexists _, 0%nat. split; [done |]. by rewrite take_0, append_nil_r. }
  destruct (nodes w !! p) as [[|c]|] eqn:Hp; cbn.
  - eexists _, 0%nat. split; [done |]. by rewrite take_0, append_nil_r.
  - rewrite Hp. cbn. destruct (decide (p ∈ write_fails w)) as [Hw|Hw]; cbn.
    + eexists _, _. split; [done |].
      unfold content, set_node, log. cbn. by rewrite lookup_insert_eq, Hp.
    + exfalso. unfold writable in Hnw. rewrite Hp in Hnw.
      by rewrite !bool_decide_eq_true_2 in Hnw.
  - rewrite lookup_insert_eq. cbn.
    destruct (decide (p ∈ write_fails w)) as [Hw|Hw]; cbn.
    + eexists _, _. split; [done |].
      unfold content, set_node, log. cbn. by rewrite lookup_insert_eq, Hp.
    + exfalso. unfold writable in Hnw. rewrite Hp in Hnw.
      by rewrite !bool_decide_eq_true_2 in Hnw.
Qed.

End filesystem.

(** ** The methods *)

Section methods.

Lemma with_buffer_id (lg : LoggerCSV) : with_buffer (buffer lg) lg = lg.
Proof. by destruct lg. Qed.

Lemma write_buffer_to_file_ok (lg : LoggerCSV) (w : world) :
  writable w (file_path lg) = true →
  _write_buffer_to_file (lg, w)
  = (Return tt,
     (with_buffer [] lg,
      appended (file_path lg) (Str.join Str.nl (buffer lg) +:+ Str.nl) w)).
Proof.
  intros Hw. unfold _write_buffer_to_file, _serialize_buffer, bind, get_self,
    set_buffer, ret, io, gc_collect. cbn.
  by rewrite (with_open_write_append _ _ _ Hw).
Qed.

Lemma write_buffer_to_file_fails (lg : LoggerCSV) (w : world) :
  writable w (file_path lg) = false →
  ∃ w' k, _write_buffer_to_file (lg, w)
          = (Raise OSError, (with_buffer [] lg, w'))
          ∧ content w' (file_path lg)
            = content w (file_path lg)
              +:+ Str.take k (Str.join Str.nl (buffer lg) +:+ Str.nl).
Proof.
  intros Hw. unfold _write_buffer_to_file, _serialize_buffer, bind, get_self,
    set_buffer, ret, io, gc_collect. cbn.
  destruct (with_open_write_append_fails w (file_path lg)
              (Str.join Str.nl (buffer lg) +:+ Str.nl) Hw) as (w' & k & -> & Hc).
  by exists w', k.
Qed.

(** Whatever the device does, a flush leaves the buffer empty and the
    other attributes alone. *)
Lemma write_buffer_to_file_self (s : state) :
  fst (snd (_write_buffer_to_file s)) = with_buffer [] (fst s).
Proof.
  destruct s as [lg w].
  destruct (writable w (file_path lg)) eqn:Hw.
  - by rewrite write_buffer_to_file_ok.
  - by destruct (write_buffer_to_file_fails lg w Hw) as (w' & k & -> & _).
Qed.

Lemma write_record_with_buffer_unfold (lg : LoggerCSV) (w : world) (r : string) :
  write_record_with_buffer r (lg, w)
  = if full_after lg r
    then _write_buffer_to_file (with_buffer (buffer lg ++ [r]) lg, w)
    else (Return tt, (with_buffer (buffer lg ++ [r]) lg, w)).
Proof.
  unfold write_record_with_buffer, _add_record_to_buffer, _buffer_full,
    bind, get_self, set_buffer, ret, gc_collect, full_after.
  cbn -[_write_buffer_to_file].
  destruct (_ >=? _); [|done].
  by destruct (_write_buffer_to_file _) as [[[]|e] s'].
Qed.

Lemma write_record_with_buffer_hold (lg : LoggerCSV) (w : world) (r : string) :
  full_after lg r = false →
  write_record_with_buffer r (lg, w)
  = (Return tt, (with_buffer (buffer lg ++ [r]) lg, w)).
Proof. intros H. by rewrite write_record_with_buffer_unfold, H. Qed.

Lemma write_record_with_buffer_flush (lg : LoggerCSV) (w : world) (r : string) :
  full_after lg r = true →
  writable w (file_path lg) = true →
  write_record_with_buffer r (lg, w)
  = (Return tt,
     (with_buffer [] lg,
      appended (file_path lg) (Str.lines_text (buffer lg ++ [r])) w)).
Proof.
  intros H Hw. rewrite write_record_with_buffer_unfold, H.
  rewrite write_buffer_to_file_ok by done. cbn.
  rewrite join_nl_lines_text; [done |]. by destruct (buffer lg).
Qed.

Lemma write_record_with_buffer_self (lg : LoggerCSV) (w : world) (r : string) :
  fst (snd (write_record_with_buffer r (lg, w)))
  = with_buffer (if full_after lg r then [] else buffer lg ++ [r]) lg.
Proof.
  rewrite write_record_with_buffer_unfold. destruct (full_after lg r); [|done].
  by rewrite write_buffer_to_file_self.
Qed.

Lemma write_record_ok (lg : LoggerCSV) (w : world) (r : string) :
  writable w (file_path lg) = true →
  write_record r (lg, w)
  = (Return tt, (lg, appended (file_path lg) (r +:+ Str.nl) w)).
Proof.
  intros Hw. unfold write_record, bind, get_self, io. cbn.
  by rewrite (with_open_write_append _ _ _ Hw).
Qed.

Lemma write_record_self (s : state) (r : string) :
  fst (snd (write_record r s)) = fst s.
Proof.
  destruct s as [lg w]. unfold write_record, bind, get_self, io. cbn.
  by destruct (Sys.with_open_write _ _ _ _).
Qed.

Lemma del_empty (lg : LoggerCSV) (w : world) :
  buffer lg = [] → __del__ (lg, w) = (Return tt, (lg, w)).
Proof. intros H. unfold __del__, bind, get_self. cbn. by rewrite H. Qed.

Lemma del_unfold (lg : LoggerCSV) (w : world) :
  buffer lg ≠ [] → __del__ (lg, w) = _write_buffer_to_file (lg, w).
Proof.
  intros H. unfold __del__, bind, get_self. cbn -[_write_buffer_to_file].
  by destruct (buffer lg) eqn:Hb.
Qed.

Lemma del_self (s : state) :
  fst (snd (__del__ s)) = with_buffer [] (fst s).
Proof.
  destruct s as [lg w]. destruct (buffer lg) as [|x b] eqn:Hb.
  - rewrite del_empty by done. cbn. by rewrite <- Hb, with_buffer_id.
  - rewrite del_unfold by (by rewrite Hb). apply write_buffer_to_file_self.
Qed.

End methods.

(** ** The scenario of [src/main.py] *)

(** Mount the card, build the logger with capacity 3 and a two-column
    header, make three buffered writes and one immediate write.  Paths are
    taken as already resolved, so the card is mounted where the logger
    looks for it. *)
Example main_scenario :
  let blank := World ∅ ∅ ∅ ∅ [] in
  let mounted := snd (Sys.uos_mount default_sd_mountpoint blank) in
  ∃ lg w1 w2,
    __init__ "sensor.csv" default_sd_mountpoint 3 (Some ["date"; "value"]) mounted
    = (Return lg, w1)
    ∧ (let* _ := write_all ["record buffered"; "record buffered";
                            "record buffered and buffer written to file"] in
       write_record "record written to file directly") (lg, w1)
      = (Return tt, (lg, w2))
    ∧ buffer lg = []
    ∧ Str.readlines (content w2 "sd/sensor.csv")
      = ["date;value"; "record buffered"; "record buffered";
         "record buffered and buffer written to file";
         "record written to file directly"].
Proof. cbv zeta. do 3 eexists. repeat split; reflexivity. Qed.

(** ** Buffer occupancy *)

Section occupancy.

Variable cap : Z.
Hypothesis cap_pos : 1 ≤ cap.

Lemma invoke_occupancy (c : call) (s : state) :
  occupancy_ok cap s → occupancy_ok cap (snd (invoke c s)).
Proof.
  destruct s as [lg w]. intros [Hcap Hlen]. cbn in Hcap, Hlen.
  unfold occupancy_ok. destruct c as [r|r|]; cbn [invoke].
  - rewrite write_record_with_buffer_self. cbn. split; [done |].
    unfold full_after. destruct (Z.geb_spec (Z.of_nat (length (buffer lg ++ [r])))
                                   (buffer_size lg)); cbn; lia.
  - by rewrite write_record_self.
  - rewrite del_self. cbn. split; [done | lia].
Qed.

Lemma boundaries_occupancy (calls : list call) (s : state) :
  occupancy_ok cap s → Forall (occupancy_ok cap) (boundaries calls s).
Proof.
  revert s. induction calls as [|c calls IH]; intros s Hs; cbn.
  - by constructor.
  - constructor; [done |]. apply IH. by apply invoke_occupancy.
Qed.

End occupancy.

(** C4.  For a logger whose capacity is at least 1, the buffer never holds
    more than [buffer_size] records at any boundary of a public call
    (buffered write, immediate write or deletion), whatever the device
    does; and when the append of a buffered write brings the length to
    exactly [buffer_size], that same call runs the flush, so the buffer is
    empty when the call returns. *)
Theorem C4_buffer_occupancy (lg : LoggerCSV) (w : world) (calls : list call) :
  1 ≤ buffer_size lg →
  Z.of_nat (length (buffer lg)) ≤ buffer_size lg →
  Forall (occupancy_ok (buffer_size lg)) (boundaries calls (lg, w))
  ∧ ∀ r : string,
      Z.of_nat (length (buffer lg)) + 1 = buffer_size lg →
      write_record_with_buffer r (lg, w)
      = _write_buffer_to_file (with_buffer (buffer lg ++ [r]) lg, w)
      ∧ buffer (fst (snd (write_record_with_buffer r (lg, w)))) = []
      ∧ (writable w (file_path lg) = true →
         write_record_with_buffer r (lg, w)
         = (Return tt,
            (with_buffer [] lg,
             appended (file_path lg) (Str.lines_text (buffer lg ++ [r])) w))).
Proof.
  intros Hcap Hlen. split.
  - apply boundaries_occupancy; [done |]. by split.
  - intros r Hfull.
    assert (full_after lg r = true) as Hf.
    { unfold full_after. rewrite length_app. cbn.
      apply Z.geb_le. lia. }
    split; [| split].
    + by rewrite write_record_with_buffer_unfold, Hf.
    + by rewrite write_record_with_buffer_self, Hf.
    + intros Hw. by apply write_record_with_buffer_flush.
Qed.

Lemma C4_buffer_occupancy_witness :
  Forall (occupancy_ok 3)
    (boundaries [call_write_record_with_buffer "a";
                 call_write_record_with_buffer "b";
                 call_write_record "x";
                 call_write_record_with_buffer "c";
                 call_write_record_with_buffer "d";
                 call_del]
       (sensor_logger, worn_card))
  ∧ ∀ r : string,
      Z.of_nat (length (buffer (with_buffer ["a"; "b"] sensor_logger))) + 1 = 3 →
      write_record_with_buffer r (with_buffer ["a"; "b"] sensor_logger, card)
      = _write_buffer_to_file
          (with_buffer (["a"; "b"] ++ [r]) sensor_logger, card)
      ∧ buffer (fst (snd (write_record_with_buffer r
                            (with_buffer ["a"; "b"] sensor_logger, card)))) = []
      ∧ (writable card "sd/sensor.csv" = true →
         write_record_with_buffer r (with_buffer ["a"; "b"] sensor_logger, card)
         = (Return tt,
            (sensor_logger,
             appended "sd/sensor.csv" (Str.lines_text (["a"; "b"] ++ [r])) card))).
Proof.
  split.
  - apply (C4_buffer_occupancy sensor_logger worn_card); cbn; lia.
  - apply (C4_buffer_occupancy (with_buffer ["a"; "b"] sensor_logger) card []);
      cbn; lia.
Defined.

(** ** Runs of buffered writes *)

Section runs.

(** Deleting the object on a healthy device puts the pending records
    after the text already in the file and empties the buffer. *)
Lemma del_spec (lg : LoggerCSV) (w : world) :
  writable w (file_path lg) = true →
  ∃ w', __del__ (lg, w) = (Return tt, (with_buffer [] lg, w'))
        ∧ content w' (file_path lg)
          = content w (file_path lg) +:+ Str.lines_text (buffer lg)
        ∧ writable w' (file_path lg) = true.
Proof.
  intros Hw. destruct (buffer lg) as [|x b] eqn:Hb.
  - exists w. rewrite del_empty by done. rewrite <- Hb, with_buffer_id.
    rewrite Hb. cbn. by rewrite append_nil_r.
  - rewrite del_unfold by (by rewrite Hb).
    rewrite write_buffer_to_file_ok by done.
    rewrite join_nl_lines_text by (by rewrite Hb).
    eexists. split; [done |]. rewrite appended_content, Hb.
    split; [done |]. by apply appended_writable.
Qed.

(** A run of buffered writes on a healthy device never raises; it splits
    the records (those pending at the start, then the submitted ones)
    into a flushed prefix, now in the file, and a pending rest. *)
Lemma write_all_spec (rs : list string) (lg : LoggerCSV) (w : world) :
  writable w (file_path lg) = true →
  ∃ flushed pending w',
    write_all rs (lg, w) = (Return tt, (with_buffer pending lg, w'))
    ∧ buffer lg ++ rs = flushed ++ pending
    ∧ content w' (file_path lg)
      = content w (file_path lg) +:+ Str.lines_text flushed
    ∧ writable w' (file_path lg) = true.
Proof.
  revert lg w. induction rs as [|r rs IH]; intros lg w Hw.
  - exists [], (buffer lg), w. cbn. rewrite with_buffer_id, app_nil_r.
    by rewrite append_nil_r.
  - cbn [write_all]. unfold bind at 1.
    destruct (full_after lg r) eqn:Hf.
    + rewrite write_record_with_buffer_flush by done.
      set (w1 := appended _ _ w).
      destruct (IH (with_buffer [] lg) w1) as (fl & pe & w' & Hrun & Hsplit & Hc & Hw').
      { by apply appended_writable. }
      exists ((buffer lg ++ [r]) ++ fl), pe, w'.
      cbn in Hrun, Hsplit, Hc, Hw'. rewrite Hrun.
      split; [done |]. split.
      { rewrite <- app_assoc, <- Hsplit. by rewrite <- app_assoc. }
      split; [| done].
      rewrite Hc. unfold w1.
      rewrite appended_content, (lines_text_app (buffer lg ++ [r]) fl).
      by rewrite append_assoc.
    + rewrite write_record_with_buffer_hold by done.
      destruct (IH (with_buffer (buffer lg ++ [r]) lg) w Hw)
        as (fl & pe & w' & Hrun & Hsplit & Hc & Hw').
      exists fl, pe, w'. cbn in Hrun, Hsplit, Hc, Hw'. rewrite Hrun.
      split; [done |]. split; [| done].
      by rewrite <- Hsplit, <- app_assoc.
Qed.

End runs.

(** C1.  Flush boundaries are invisible.  On a healthy device, a run of
    buffered writes of newline-free records on a fresh logger never
    raises, and the record lines appended to the file, read back in order
    and followed by the records still waiting in the buffer, are the
    submitted records in call order; once the object is deleted the file
    holds them all, whatever the capacity and so wherever the automatic
    flushes fell.  Each flush is one open in append mode, one write of the
    pending records joined by line feeds and closed by one more, and one
    close. *)
Theorem C1_flush_boundaries_invisible
    (lg : LoggerCSV) (w : world) (rs : list string) :
  buffer lg = [] →
  Forall newline_free rs →
  writable w (file_path lg) = true →
  (∃ flushed pending w' w'',
     write_all rs (lg, w) = (Return tt, (with_buffer pending lg, w'))
     ∧ content w' (file_path lg)
       = content w (file_path lg) +:+ Str.lines_text flushed
     ∧ Str.readlines (Str.lines_text flushed) ++ pending = rs
     ∧ __del__ (with_buffer pending lg, w')
       = (Return tt, (with_buffer [] lg, w''))
     ∧ content w'' (file_path lg)
       = content w (file_path lg) +:+ Str.lines_text rs
     ∧ Str.readlines (Str.lines_text rs) = rs)
  ∧ ∀ (lg0 : LoggerCSV) (w0 : world),
      writable w0 (file_path lg0) = true →
      _write_buffer_to_file (lg0, w0)
      = (Return tt,
         (with_buffer [] lg0,
          appended (file_path lg0)
            (Str.join Str.nl (buffer lg0) +:+ Str.nl) w0))
      ∧ events_since w0
          (appended (file_path lg0) (Str.join Str.nl (buffer lg0) +:+ Str.nl) w0)
        = [sys_open (file_path lg0) mode_a;
           sys_write (file_path lg0) (Str.join Str.nl (buffer lg0) +:+ Str.nl);
           sys_close (file_path lg0)].
Proof.
  intros Hb Hrs Hw. split.
  - destruct (write_all_spec rs lg w Hw) as (fl & pe & w' & Hrun & Hsplit & Hc & Hw').
    rewrite Hb in Hsplit. cbn in Hsplit.
    destruct (del_spec (with_buffer pe lg) w' Hw') as (w'' & Hdel & Hc' & _).
    cbn in Hdel, Hc'.
    assert (Forall newline_free fl) as Hfl.
    { rewrite Hsplit in Hrs. by apply Forall_app in Hrs as [? _]. }
    exists fl, pe, w', w''. split; [done |]. split; [done |].
    split. { by rewrite readlines_lines_text. }
    split; [done |]. split.
    + by rewrite Hc', Hc, append_assoc, <- lines_text_app, <- Hsplit.
    + by apply readlines_lines_text.
  - intros lg0 w0 Hw0. split.
    + by apply write_buffer_to_file_ok.
    + apply appended_events.
Qed.

Lemma C1_flush_boundaries_invisible_witness :
  ∃ flushed pending w' w'',
    write_all ["2024-01-01;10"; "2024-01-01;20"; "2024-01-01;30"; "2024-01-02;5"]
      (sensor_logger, card)
    = (Return tt, (with_buffer pending sensor_logger, w'))
    ∧ content w' "sd/sensor.csv"
      = content card "sd/sensor.csv" +:+ Str.lines_text flushed
    ∧ Str.readlines (Str.lines_text flushed) ++ pending
      = ["2024-01-01;10"; "2024-01-01;20"; "2024-01-01;30"; "2024-01-02;5"]
    ∧ __del__ (with_buffer pending sensor_logger, w')
      = (Return tt, (with_buffer [] sensor_logger, w''))
    ∧ content w'' "sd/sensor.csv"
      = content card "sd/sensor.csv"
        +:+ Str.lines_text
              ["2024-01-01;10"; "2024-01-01;20"; "2024-01-01;30"; "2024-01-02;5"]
    ∧ Str.readlines
        (Str.lines_text
           ["2024-01-01;10"; "2024-01-01;20"; "2024-01-01;30"; "2024-01-02;5"])
      = ["2024-01-01;10"; "2024-01-01;20"; "2024-01-01;30"; "2024-01-02;5"].
Proof.
  apply (C1_flush_boundaries_invisible sensor_logger card
           ["2024-01-01;10"; "2024-01-01;20"; "2024-01-01;30"; "2024-01-02;5"]).
  - reflexivity.
  - repeat constructor.
  - reflexivity.
Defined.

(** ** What a failing device does to a flush *)

(** C2, as amended.  The buffer is emptied by serialization, before the
    file is opened.  So when the device refuses the append, the flush
    raises [OSError] with the buffer already empty: the pending records
    are gone from the logger, and a retry finds only the lone line feed of
    an empty buffer to write. *)
Theorem C2_failed_flush_empties_buffer (lg : LoggerCSV) (w : world) :
  writable w (file_path lg) = false →
  _serialize_buffer (lg, w)
  = (Return (Str.join Str.nl (buffer lg) +:+ Str.nl), (with_buffer [] lg, w))
  ∧ ∃ w', _write_buffer_to_file (lg, w)
          = (Raise OSError, (with_buffer [] lg, w'))
          ∧ fst (_serialize_buffer (with_buffer [] lg, w')) = Return Str.nl.
Proof.
  intros Hw. split; [done |].
  destruct (write_buffer_to_file_fails lg w Hw) as (w' & k & Hrun & _).
  exists w'. by split.
Qed.

Lemma C2_failed_flush_empties_buffer_witness :
  _serialize_buffer (with_buffer ["a"; "b"] sensor_logger, worn_card)
  = (Return (Str.join Str.nl ["a"; "b"] +:+ Str.nl), (sensor_logger, worn_card))
  ∧ ∃ w', _write_buffer_to_file (with_buffer ["a"; "b"] sensor_logger, worn_card)
          = (Raise OSError, (sensor_logger, w'))
          ∧ fst (_serialize_buffer (sensor_logger, w')) = Return Str.nl.
Proof.
  apply (C2_failed_flush_empties_buffer
           (with_buffer ["a"; "b"] sensor_logger) worn_card).
  reflexivity.
Defined.

(** A flush of two pending records on a card that refuses the write raises
    and comes back with an empty buffer. *)
Lemma C2_counterexample :
  buffer (with_buffer ["a"; "b"] sensor_logger) = ["a"; "b"]
  ∧ fst (_write_buffer_to_file (with_buffer ["a"; "b"] sensor_logger, worn_card))
    = Raise OSError
  ∧ buffer (fst (snd (_write_buffer_to_file
                        (with_buffer ["a"; "b"] sensor_logger, worn_card))))
    = []
  ∧ buffer (fst (snd (_write_buffer_to_file
                        (with_buffer ["a"; "b"] sensor_logger, worn_card))))
    ≠ buffer (with_buffer ["a"; "b"] sensor_logger).
Proof.
  split; [reflexivity |]. split; [reflexivity |].
  split; [reflexivity | discriminate].
Qed.

(** ** Records with embedded line feeds *)

Section validation.

Lemma write_buffer_to_file_outcome (s : state) :
  normal_or_OSError (fst (_write_buffer_to_file s)).
Proof.
  destruct s as [lg w]. destruct (writable w (file_path lg)) eqn:Hw.
  - left. by rewrite write_buffer_to_file_ok.
  - right. by destruct (write_buffer_to_file_fails lg w Hw) as (w' & k & -> & _).
Qed.

Lemma write_record_with_buffer_outcome (r : string) (s : state) :
  normal_or_OSError (fst (write_record_with_buffer r s)).
Proof.
  destruct s as [lg w]. rewrite write_record_with_buffer_unfold.
  destruct (full_after lg r); [apply write_buffer_to_file_outcome | by left].
Qed.

Lemma write_record_outcome (r : string) (s : state) :
  normal_or_OSError (fst (write_record r s)).
Proof.
  destruct s as [lg w]. destruct (writable w (file_path lg)) eqn:Hw.
  - left. by rewrite write_record_ok.
  - right. unfold write_record, bind, get_self, io. cbn.
    by destruct (with_open_write_append_fails w (file_path lg)
                   (r +:+ Str.nl) Hw) as (w' & k & -> & _).
Qed.

End validation.

(** C3 (the code departs from it).  [_validate_record] does raise
    [InvalideRecordError] on a record with an embedded line feed, but no
    write path calls it: neither path can end with that exception, the
    buffered path takes the record into the buffer and the immediate path
    puts it in the file, where it reads back as two lines. *)
Theorem C3_newline_record_accepted :
  let r := "a" +:+ Str.nl +:+ "b" in
  fst (_validate_record r (sensor_logger, card))
  = Raise (InvalideRecordError "Record cannot contain newline characters")
  ∧ write_record_with_buffer r (sensor_logger, card)
    = (Return tt, (with_buffer [r] sensor_logger, card))
  ∧ write_record r (sensor_logger, card)
    = (Return tt, (sensor_logger, appended "sd/sensor.csv" (r +:+ Str.nl) card))
  ∧ Str.readlines (content (appended "sd/sensor.csv" (r +:+ Str.nl) card)
                     "sd/sensor.csv")
    = ["a"; "b"]
  ∧ ∀ (record : string) (s : state),
      normal_or_OSError (fst (write_record_with_buffer record s))
      ∧ normal_or_OSError (fst (write_record record s)).
Proof.
  cbv zeta. split; [reflexivity |]. split; [reflexivity |].
  split; [reflexivity |]. split; [reflexivity |].
  intros record s. split.
  - apply write_record_with_buffer_outcome.
  - apply write_record_outcome.
Qed.

(** ** The immediate path *)

(** C7.  On a healthy device, [write_record] on a newline-free record
    returns normally after one open in append mode, one write of the
    record followed by a line feed and one close: the text of the file
    grows by exactly that line, and the logger object, its buffer
    included, is what it was.  The buffer is left alone even when the
    device fails. *)
Theorem C7_write_record_bypasses_buffer
    (lg : LoggerCSV) (w : world) (record : string) :
  newline_free record →
  writable w (file_path lg) = true →
  ∃ w', write_record record (lg, w) = (Return tt, (lg, w'))
        ∧ events_since w w'
          = [sys_open (file_path lg) mode_a;
             sys_write (file_path lg) (record +:+ Str.nl);
             sys_close (file_path lg)]
        ∧ content w' (file_path lg)
          = content w (file_path lg) +:+ record +:+ Str.nl
        ∧ Str.readlines (record +:+ Str.nl) = [record]
        ∧ ∀ (r : string) (s : state), fst (snd (write_record r s)) = fst s.
Proof.
  intros Hr Hw. exists (appended (file_path lg) (record +:+ Str.nl) w).
  split; [by apply write_record_ok |].
  split; [apply appended_events |].
  split; [apply appended_content |].
  split.
  - exact (readlines_line record "" Hr).
  - intros r s. apply write_record_self.
Qed.

Lemma C7_write_record_bypasses_buffer_witness :
  ∃ w', write_record "2024-01-01;99"
          (with_buffer ["pending 1"; "pending 2"] sensor_logger, card)
        = (Return tt, (with_buffer ["pending 1"; "pending 2"] sensor_logger, w'))
        ∧ events_since card w'
          = [sys_open "sd/sensor.csv" mode_a;
             sys_write "sd/sensor.csv" ("2024-01-01;99" +:+ Str.nl);
             sys_close "sd/sensor.csv"]
        ∧ content w' "sd/sensor.csv"
          = content card "sd/sensor.csv" +:+ "2024-01-01;99" +:+ Str.nl
        ∧ Str.readlines ("2024-01-01;99" +:+ Str.nl) = ["2024-01-01;99"]
        ∧ ∀ (r : string) (s : state), fst (snd (write_record r s)) = fst s.
Proof.
  apply (C7_write_record_bypasses_buffer
           (with_buffer ["pending 1"; "pending 2"] sensor_logger) card
           "2024-01-01;99"); reflexivity.
Defined.

(** ** Construction *)

Section construction.

Variables (fn mp : string) (bs : Z) (hs : option (list string)).

Lemma events_since_app (w w' : world) (evs : list syscall) :
  trace w' = trace w ++ evs → events_since w w' = evs.
Proof. intros H. unfold events_since. by rewrite H, drop_app_length. Qed.

Lemma init_unmounted (w : world) :
  nodes w !! mp = None →
  __init__ fn mp bs hs w
  = (Raise (SDNotMountedError ("Mount point '" +:+ mp +:+ "' not found")),
     log (sys_stat mp) w).
Proof.
  intros Hmp. unfold __init__, _post_init, _verify_sd_mounted, bind, get_self,
    try_except_OSError, io, raise, Sys.os_stat. cbn. by rewrite Hmp.
Qed.

Lemma init_no_header (w : world) :
  is_Some (nodes w !! mp) →
  is_Some (nodes w !! (mp +:+ "/" +:+ fn)) ∨ hs = None →
  __init__ fn mp bs hs w
  = (Return (new_logger fn mp bs hs), log (sys_stat (mp +:+ "/" +:+ fn)) (log (sys_stat mp) w)).
Proof.
  intros [n Hmp] Hskip.
  unfold __init__, _post_init, _verify_sd_mounted, _create_csv_with_headers,
    _file_exists, bind, get_self, try_except_OSError, io, raise, ret,
    Sys.os_stat. cbn. rewrite Hmp. cbn.
  destruct (nodes w !! (mp +:+ "/" +:+ fn)) as [n'|] eqn:Hp; cbn; [done |].
  destruct Hskip as [[? ?]| ->]; [done |]. done.
Qed.

Lemma init_header (w : world) (cols : list string) :
  is_Some (nodes w !! mp) →
  nodes w !! (mp +:+ "/" +:+ fn) = None →
  hs = Some cols →
  ((mp +:+ "/" +:+ fn) ∉ open_fails w) →
  ((mp +:+ "/" +:+ fn) ∉ write_fails w) →
  __init__ fn mp bs hs w
  = (Return (new_logger fn mp bs hs),
     created (mp +:+ "/" +:+ fn) (Str.join ";" cols +:+ Str.nl)
       (log (sys_stat (mp +:+ "/" +:+ fn)) (log (sys_stat mp) w))).
Proof.
  intros [n Hmp] Hp -> Ho Hw.
  unfold __init__, _post_init, _verify_sd_mounted, _create_csv_with_headers,
    _file_exists, bind, get_self, try_except_OSError, io, raise, ret,
    Sys.os_stat. cbn. rewrite Hmp. cbn. rewrite Hp. cbn.
  unfold Sys.with_open_write, bind, finally, Sys.open, Sys.write, Sys.close.
  cbn. rewrite decide_False by done. rewrite Hp. cbn.
  rewrite lookup_insert_eq. cbn. rewrite decide_False by done. cbn.
  unfold created, set_node, log, new_logger. cbn.
  by rewrite insert_insert_eq, <- !app_assoc.
Qed.

Lemma init_header_fails (w : world) (cols : list string) :
  is_Some (nodes w !! mp) →
  nodes w !! (mp +:+ "/" +:+ fn) = None →
  hs = Some cols →
  ((mp +:+ "/" +:+ fn) ∈ open_fails w) ∨ ((mp +:+ "/" +:+ fn) ∈ write_fails w) →
  fst (__init__ fn mp bs hs w) = Raise OSError.
Proof.
  intros [n Hmp] Hp -> Hfault.
  unfold __init__, _post_init, _verify_sd_mounted, _create_csv_with_headers,
    _file_exists, bind, get_self, try_except_OSError, io, raise, ret,
    Sys.os_stat. cbn. rewrite Hmp. cbn. rewrite Hp. cbn.
  unfold Sys.with_open_write, bind, finally, Sys.open, Sys.write, Sys.close.
  cbn. destruct (decide ((mp +:+ "/" +:+ fn) ∈ open_fails w)) as [Ho|Ho]; [done |].
  rewrite Hp. cbn. destruct Hfault as [?|Hw]; [done |].
  rewrite lookup_insert_eq. cbn. by rewrite decide_True by done.
Qed.

End construction.

(** ** No method mounts anything *)

Section preservation.

Context {S O : Type} (obs : S → O).

Lemma preserves_ret {A} (a : A) : preserves obs (ret a).
Proof. by intros s. Qed.

Lemma preserves_raise {A} (e : exn) : preserves obs (raise (A:=A) e).
Proof. by intros s. Qed.

Lemma preserves_bind {A B} (m : M S A) (k : A → M S B) :
  preserves obs m → (∀ a, preserves obs (k a)) → preserves obs (bind m k).
Proof.
  intros Hm Hk s. unfold bind. specialize (Hm s).
  destruct (m s) as [[a|e] s1]; cbn in *; [| done].
  by rewrite Hk.
Qed.

Lemma preserves_try {A} (m h : M S A) :
  preserves obs m → preserves obs h →
  preserves obs (try_except_OSError m h).
Proof.
  intros Hm Hh s. unfold try_except_OSError. specialize (Hm s).
  destruct (m s) as [[a|[msg|msg|]] s1]; cbn in *; try done.
  by rewrite Hh.
Qed.

Lemma preserves_finally {A} (m : M S A) (c : M S unit) :
  preserves obs m → preserves obs c → preserves obs (finally m c).
Proof.
  intros Hm Hc s. unfold finally. specialize (Hm s).
  destruct (m s) as [r s1]. specialize (Hc s1).
  destruct (c s1) as [[[]|e] s2]; cbn in *; congruence.
Qed.

End preservation.

Section no_mount.

Local Ltac same_mounts :=
  unfold mounts, set_node, log; cbn;
  rewrite ?List.filter_app; cbn; rewrite ?app_nil_r; done.

Lemma os_stat_mounts (path : string) : preserves mounts (Sys.os_stat path).
Proof.
  intros w. unfold Sys.os_stat. cbn.
  destruct (nodes w !! path); same_mounts.
Qed.

Lemma open_mounts (path : string) (m : mode) : preserves mounts (Sys.open path m).
Proof.
  intros w. unfold Sys.open. cbn.
  destruct (decide _); [same_mounts |].
  destruct (nodes w !! path) as [[|c]|], m; same_mounts.
Qed.

Lemma write_mounts (file data : string) : preserves mounts (Sys.write file data).
Proof.
  intros w. unfold Sys.write. cbn.
  destruct (nodes w !! file) as [[|c]|]; [same_mounts | | same_mounts].
  destruct (decide _); same_mounts.
Qed.

Lemma close_mounts (file : string) : preserves mounts (Sys.close file).
Proof. intros w. unfold Sys.close. same_mounts. Qed.

Lemma with_open_write_mounts (path : string) (m : mode) (data : string) :
  preserves mounts (Sys.with_open_write path m data).
Proof.
  apply preserves_bind; [apply open_mounts |]. intros file.
  apply preserves_finally; [apply write_mounts | apply close_mounts].
Qed.

Lemma io_mounts {A} (m : M world A) :
  preserves mounts m → preserves state_mounts (io m).
Proof.
  intros Hm [lg w]. unfold io, state_mounts. cbn. specialize (Hm w).
  by destruct (m w).
Qed.

Lemma get_self_mounts : preserves state_mounts get_self.
Proof. by intros s. Qed.

Lemma set_buffer_mounts (b : list string) : preserves state_mounts (set_buffer b).
Proof. by intros s. Qed.

Lemma post_init_mounts : preserves state_mounts _post_init.
Proof.
  apply preserves_bind.
  - apply preserves_bind; [apply get_self_mounts |]. intros self.
    apply preserves_try; [| apply preserves_raise].
    apply io_mounts, os_stat_mounts.
  - intros _. apply preserves_bind; [apply get_self_mounts |]. intros self.
    apply preserves_bind.
    + apply preserves_bind; [apply get_self_mounts |]. intros self'.
      apply preserves_try; [| apply preserves_ret].
      apply preserves_bind; [apply io_mounts, os_stat_mounts |].
      intros _. apply preserves_ret.
    + intros found. destruct (found || _); [apply preserves_ret |].
      destruct (csv_headers self); [| apply preserves_ret].
      apply io_mounts, with_open_write_mounts.
Qed.

Lemma init_mounts (fn mp : string) (bs : Z) (hs : option (list string)) :
  preserves mounts (__init__ fn mp bs hs).
Proof.
  intros w. unfold __init__.
  pose proof (post_init_mounts (new_logger fn mp bs hs, w)) as H.
  unfold new_logger in H.
  destruct (_post_init _) as [[[]|e] [lg' w']]; exact H.
Qed.

Lemma write_buffer_to_file_mounts : preserves state_mounts _write_buffer_to_file.
Proof.
  apply preserves_bind.
  - apply preserves_bind; [apply get_self_mounts |]. intros self.
    apply preserves_bind; [apply set_buffer_mounts |]. intros _.
    apply preserves_ret.
  - intros text. apply preserves_bind; [apply get_self_mounts |]. intros self.
    apply preserves_bind; [| intros _; apply preserves_ret].
    apply io_mounts, with_open_write_mounts.
Qed.

Lemma invoke_mounts (c : call) : preserves state_mounts (invoke c).
Proof.
  destruct c as [r|r|]; cbn [invoke].
  - apply preserves_bind.
    { apply preserves_bind; [apply get_self_mounts |]. intros self.
      apply set_buffer_mounts. }
    intros _. apply preserves_bind.
    { apply preserves_bind; [apply get_self_mounts |]. intros self.
      apply preserves_ret. }
    intros full. apply preserves_bind; [| intros _; apply preserves_ret].
    destruct full; [apply write_buffer_to_file_mounts | apply preserves_ret].
  - apply preserves_bind; [apply get_self_mounts |]. intros self.
    apply io_mounts, with_open_write_mounts.
  - apply preserves_bind; [apply get_self_mounts |]. intros self.
    destruct (buffer self); [apply preserves_ret |].
    apply write_buffer_to_file_mounts.
Qed.

End no_mount.

(** ** Construction, the header and the mount point *)

Section construction_outcomes.

Variables (fn mp : string) (bs : Z) (hs : option (list string)).

(** With the mount point in place and a device that takes writes to the
    log file, construction returns the new object, whatever the capacity
    asked for. *)
Lemma init_succeeds (w : world) :
  is_Some (nodes w !! mp) →
  (mp +:+ "/" +:+ fn ∉ open_fails w) →
  (mp +:+ "/" +:+ fn ∉ write_fails w) →
  ∃ w', __init__ fn mp bs hs w = (Return (new_logger fn mp bs hs), w').
Proof.
  intros Hmp Ho Hw.
  destruct (nodes w !! (mp +:+ "/" +:+ fn)) as [n|] eqn:Hp.
  - eexists. apply init_no_header; [done |]. left. by rewrite Hp.
  - destruct hs as [cols|] eqn:Hhs.
    + eexists. by apply init_header.
    + eexists. apply init_no_header; [done |]. by right.
Qed.

(** A construction that returned found the mount point. *)
Lemma init_returned_mounted (w w' : world) (lg : LoggerCSV) :
  __init__ fn mp bs hs w = (Return lg, w') → is_Some (nodes w !! mp).
Proof.
  intros H. destruct (nodes w !! mp) as [n|] eqn:Hmp; [done |].
  by rewrite init_unmounted in H.
Qed.

(** The two ways a construction returns: without touching the file, or
    after creating it with the header. *)
Lemma init_returned_cases (w w' : world) (lg : LoggerCSV) :
  __init__ fn mp bs hs w = (Return lg, w') →
  ((is_Some (nodes w !! (mp +:+ "/" +:+ fn)) ∨ hs = None)
   ∧ w' = log (sys_stat (mp +:+ "/" +:+ fn)) (log (sys_stat mp) w))
  ∨ (∃ cols, hs = Some cols
             ∧ nodes w !! (mp +:+ "/" +:+ fn) = None
             ∧ w' = created (mp +:+ "/" +:+ fn) (Str.join ";" cols +:+ Str.nl)
                      (log (sys_stat (mp +:+ "/" +:+ fn))
                         (log (sys_stat mp) w))).
Proof.
  intros Hinit. pose proof (init_returned_mounted _ _ _ Hinit) as Hmp.
  set (p := mp +:+ "/" +:+ fn) in *.
  destruct (nodes w !! p) as [n|] eqn:Hp.
  - left. assert (is_Some (nodes w !! p) ∨ hs = None) as Hskip.
    { left. by rewrite Hp. }
    rewrite (init_no_header fn mp bs hs w Hmp Hskip) in Hinit.
    inversion Hinit. split; [by left | done].
  - destruct hs as [cols|] eqn:Hhs.
    + right. exists cols.
      destruct (decide (p ∈ open_fails w)) as [Ho|Ho].
      { pose proof (init_header_fails fn mp bs (Some cols) w cols Hmp Hp
                      eq_refl (or_introl Ho)) as Hf.
        by rewrite Hinit in Hf. }
      destruct (decide (p ∈ write_fails w)) as [Hw|Hw].
      { pose proof (init_header_fails fn mp bs (Some cols) w cols Hmp Hp
                      eq_refl (or_intror Hw)) as Hf.
        by rewrite Hinit in Hf. }
      rewrite (init_header fn mp bs (Some cols) w cols) in Hinit by done.
      by inversion Hinit.
    + left. rewrite init_no_header in Hinit; [| done | by right].
      inversion Hinit. split; [by right | done].
Qed.

End construction_outcomes.

(** C5.  A construction that returns has written the header exactly when
    header columns were supplied and nothing was at the file's path before:
    then the one write made is the columns joined by the delimiter and
    closed by one line feed, which becomes the whole file (one line when
    the joined columns hold no line feed); otherwise nothing is written
    and the files are as they were.  A second construction over the file
    that now exists, with any capacity and headers, returns having written
    nothing and changed no file. *)
Theorem C5_header_written_once
    (fn mp : string) (bs : Z) (hs : option (list string))
    (w w' : world) (lg : LoggerCSV) :
  __init__ fn mp bs hs w = (Return lg, w') →
  match hs, nodes w !! (mp +:+ "/" +:+ fn) with
  | Some cols, None =>
      writes_of (events_since w w')
      = [(mp +:+ "/" +:+ fn, Str.join ";" cols +:+ Str.nl)]
      ∧ nodes w' = <[mp +:+ "/" +:+ fn := File (Str.join ";" cols +:+ Str.nl)]>
                     (nodes w)
      ∧ (newline_free (Str.join ";" cols) →
         Str.readlines (content w' (mp +:+ "/" +:+ fn)) = [Str.join ";" cols])
  | _, _ => writes_of (events_since w w') = [] ∧ nodes w' = nodes w
  end
  ∧ (is_Some hs → is_Some (nodes w' !! (mp +:+ "/" +:+ fn)))
  ∧ ∀ (bs2 : Z) (hs2 : option (list string)),
      is_Some (nodes w' !! (mp +:+ "/" +:+ fn)) →
      ∃ w'', __init__ fn mp bs2 hs2 w' = (Return (new_logger fn mp bs2 hs2), w'')
             ∧ writes_of (events_since w' w'') = []
             ∧ nodes w'' = nodes w'.
Proof.
  intros Hinit. pose proof (init_returned_mounted _ _ _ _ _ _ _ Hinit) as Hmp.
  pose proof (init_returned_cases _ _ _ _ _ _ _ Hinit) as Hcases.
  set (p := mp +:+ "/" +:+ fn) in *.
  assert (∀ v, events_since v (log (sys_stat p) (log (sys_stat mp) v))
               = [sys_stat mp; sys_stat p]) as Hstats.
  { intros v. apply events_since_app. cbn. by rewrite <- app_assoc. }
  split; [| split].
  - destruct Hcases as [[Hskip ->]|(cols & -> & Hp & ->)].
    + rewrite Hstats.
      destruct hs as [cols|]; [| done].
      destruct (nodes w !! p) as [n|] eqn:Hp; [done |].
      by destruct Hskip as [[? ?]|?].
    + rewrite Hp. split; [| split].
      * rewrite (events_since_app w _
                   [sys_stat mp; sys_stat p; sys_open p mode_w;
                    sys_write p (Str.join ";" cols +:+ Str.nl); sys_close p]).
        -- done.
        -- cbn. by rewrite <- !app_assoc.
      * done.
      * intros Hnl. unfold content, created. cbn. rewrite lookup_insert_eq.
        exact (readlines_line _ "" Hnl).
  - intros [cols Hcols]. destruct Hcases as [[Hskip ->]|(cols' & _ & _ & ->)].
    + cbn. destruct Hskip as [?| ->]; done.
    + cbn. by rewrite lookup_insert_eq.
  - intros bs2 hs2 Hp'.
    assert (is_Some (nodes w' !! mp)) as Hmp'.
    { destruct Hcases as [[_ ->]|(cols & _ & _ & ->)]; [done |]. cbn.
      destruct (decide (p = mp)) as [->|Hne].
      - by rewrite lookup_insert_eq.
      - by rewrite lookup_insert_ne. }
    eexists. split; [apply init_no_header; [done | by left] |].
    fold p. by rewrite Hstats.
Qed.

Lemma C5_header_written_once_witness :
  (writes_of (events_since card card_with_header)
   = [("sd/sensor.csv", "date;value" +:+ Str.nl)]
   ∧ nodes card_with_header
     = <["sd/sensor.csv" := File ("date;value" +:+ Str.nl)]> (nodes card)
   ∧ (newline_free "date;value" →
      Str.readlines (content card_with_header "sd/sensor.csv") = ["date;value"]))
  ∧ (is_Some (Some ["date"; "value"]) →
     is_Some (nodes card_with_header !! "sd/sensor.csv"))
  ∧ ∀ (bs2 : Z) (hs2 : option (list string)),
      is_Some (nodes card_with_header !! "sd/sensor.csv") →
      ∃ w'', __init__ "sensor.csv" "sd" bs2 hs2 card_with_header
             = (Return (new_logger "sensor.csv" "sd" bs2 hs2), w'')
             ∧ writes_of (events_since card_with_header w'') = []
             ∧ nodes w'' = nodes card_with_header.
Proof.
  exact (C5_header_written_once "sensor.csv" "sd" 3 (Some ["date"; "value"])
           card card_with_header sensor_logger eq_refl).
Defined.

(** C6.  When nothing is at the mount point, construction raises
    [SDNotMountedError] after a single [stat] of the mount point: no file
    is opened, created or written and the files are as they were.  No
    construction and no public call ever issues a mount. *)
Theorem C6_mount_checked_first
    (fn mp : string) (bs : Z) (hs : option (list string)) (w : world) :
  nodes w !! mp = None →
  (∃ w', __init__ fn mp bs hs w
         = (Raise (SDNotMountedError ("Mount point '" +:+ mp +:+ "' not found")),
            w')
         ∧ events_since w w' = [sys_stat mp]
         ∧ nodes w' = nodes w)
  ∧ (∀ w0 : world, mounts (snd (__init__ fn mp bs hs w0)) = mounts w0)
  ∧ ∀ (c : call) (s : state), state_mounts (snd (invoke c s)) = state_mounts s.
Proof.
  intros Hmp. split; [| split].
  - exists (log (sys_stat mp) w). split; [by apply init_unmounted |].
    split; [| done]. by apply events_since_app.
  - apply init_mounts.
  - intros c. apply invoke_mounts.
Qed.

Lemma C6_mount_checked_first_witness :
  (∃ w', __init__ "sensor.csv" "usb" 3 (Some ["date"; "value"]) card
         = (Raise (SDNotMountedError ("Mount point '" +:+ "usb" +:+ "' not found")),
            w')
         ∧ events_since card w' = [sys_stat "usb"]
         ∧ nodes w' = nodes card)
  ∧ (∀ w0 : world,
       mounts (snd (__init__ "sensor.csv" "usb" 3 (Some ["date"; "value"]) w0))
       = mounts w0)
  ∧ ∀ (c : call) (s : state), state_mounts (snd (invoke c s)) = state_mounts s.
Proof.
  apply (C6_mount_checked_first "sensor.csv" "usb" 3 (Some ["date"; "value"]) card).
  reflexivity.
Defined.

(** ** Deletion and direct flushes *)

(** C8.  Deleting a logger with pending records on a healthy device makes
    one write, of exactly those records in order, each closed by a line
    feed, and leaves the buffer empty; deleting it again is then a no-op.
    Deleting any logger whose buffer is empty returns with the object and
    the filesystem untouched: no file call at all. *)
Theorem C8_del_flushes_pending (lg : LoggerCSV) (w : world) :
  (0 < length (buffer lg))%nat →
  writable w (file_path lg) = true →
  (∃ w', __del__ (lg, w) = (Return tt, (with_buffer [] lg, w'))
         ∧ writes_of (events_since w w')
           = [(file_path lg, Str.lines_text (buffer lg))]
         ∧ content w' (file_path lg)
           = content w (file_path lg) +:+ Str.lines_text (buffer lg)
         ∧ (Forall newline_free (buffer lg) →
            Str.readlines (Str.lines_text (buffer lg)) = buffer lg)
         ∧ __del__ (with_buffer [] lg, w')
           = (Return tt, (with_buffer [] lg, w')))
  ∧ ∀ (lg0 : LoggerCSV) (w0 : world),
      buffer lg0 = [] → __del__ (lg0, w0) = (Return tt, (lg0, w0)).
Proof.
  intros Hn Hw. split; [| intros lg0 w0; apply del_empty].
  assert (buffer lg ≠ []) as Hne by (destruct (buffer lg); [cbn in Hn; lia | done]).
  exists (appended (file_path lg) (Str.lines_text (buffer lg)) w).
  split.
  { rewrite del_unfold, write_buffer_to_file_ok by done.
    by rewrite join_nl_lines_text. }
  split; [by rewrite appended_events |].
  split; [apply appended_content |].
  split; [apply readlines_lines_text |].
  by apply del_empty.
Qed.

Lemma C8_del_flushes_pending_witness :
  (∃ w', __del__ (with_buffer ["2024-01-01;10"; "2024-01-01;20"] sensor_logger,
                  card_with_header)
         = (Return tt, (sensor_logger, w'))
         ∧ writes_of (events_since card_with_header w')
           = [("sd/sensor.csv",
               Str.lines_text ["2024-01-01;10"; "2024-01-01;20"])]
         ∧ content w' "sd/sensor.csv"
           = content card_with_header "sd/sensor.csv"
             +:+ Str.lines_text ["2024-01-01;10"; "2024-01-01;20"]
         ∧ (Forall newline_free ["2024-01-01;10"; "2024-01-01;20"] →
            Str.readlines (Str.lines_text ["2024-01-01;10"; "2024-01-01;20"])
            = ["2024-01-01;10"; "2024-01-01;20"])
         ∧ __del__ (sensor_logger, w') = (Return tt, (sensor_logger, w')))
  ∧ ∀ (lg0 : LoggerCSV) (w0 : world),
      buffer lg0 = [] → __del__ (lg0, w0) = (Return tt, (lg0, w0)).
Proof.
  apply (C8_del_flushes_pending
           (with_buffer ["2024-01-01;10"; "2024-01-01;20"] sensor_logger)
           card_with_header).
  - cbn. lia.
  - reflexivity.
Defined.

(** C9.  A flush called on an empty buffer is not a no-op: serialization
    yields the lone line feed, which a healthy device appends to the file
    as one blank line, and the buffer is empty afterwards as before. *)
Theorem C9_flush_of_empty_buffer (lg : LoggerCSV) (w : world) :
  buffer lg = [] →
  writable w (file_path lg) = true →
  _serialize_buffer (lg, w) = (Return Str.nl, (lg, w))
  ∧ _write_buffer_to_file (lg, w)
    = (Return tt, (lg, appended (file_path lg) Str.nl w))
  ∧ writes_of (events_since w (appended (file_path lg) Str.nl w))
    = [(file_path lg, Str.nl)]
  ∧ content (appended (file_path lg) Str.nl w) (file_path lg)
    = content w (file_path lg) +:+ Str.nl
  ∧ Str.readlines Str.nl = [""]
  ∧ buffer (fst (snd (_write_buffer_to_file (lg, w)))) = [].
Proof.
  intros Hb Hw.
  assert (with_buffer [] lg = lg) as Hid by (by rewrite <- Hb, with_buffer_id).
  split.
  { unfold _serialize_buffer, bind, get_self, set_buffer, ret. cbn.
    by rewrite Hb, Hid. }
  rewrite write_buffer_to_file_ok by done. rewrite Hb, Hid. cbn.
  split; [done |]. split; [by rewrite appended_events |].
  split; [apply appended_content |]. done.
Qed.

Lemma C9_flush_of_empty_buffer_witness :
  _serialize_buffer (sensor_logger, card_with_header)
  = (Return Str.nl, (sensor_logger, card_with_header))
  ∧ _write_buffer_to_file (sensor_logger, card_with_header)
    = (Return tt, (sensor_logger, appended "sd/sensor.csv" Str.nl card_with_header))
  ∧ writes_of (events_since card_with_header
                 (appended "sd/sensor.csv" Str.nl card_with_header))
    = [("sd/sensor.csv", Str.nl)]
  ∧ content (appended "sd/sensor.csv" Str.nl card_with_header) "sd/sensor.csv"
    = content card_with_header "sd/sensor.csv" +:+ Str.nl
  ∧ Str.readlines Str.nl = [""]
  ∧ buffer (fst (snd (_write_buffer_to_file (sensor_logger, card_with_header))))
    = [].
Proof.
  apply (C9_flush_of_empty_buffer sensor_logger card_with_header); reflexivity.
Defined.

(** ** Capacities below one *)

Section nonpositive_capacity.

Lemma full_after_nonpositive (lg : LoggerCSV) (r : string) :
  buffer_size lg ≤ 0 → full_after lg r = true.
Proof. intros Hbs. unfold full_after. apply Z.geb_le. lia. Qed.

Lemma write_all_nonpositive (rs : list string) (lg : LoggerCSV) (w : world) :
  buffer_size lg ≤ 0 →
  buffer lg = [] →
  writable w (file_path lg) = true →
  ∃ w', write_all rs (lg, w) = (Return tt, (lg, w'))
        ∧ content w' (file_path lg)
          = content w (file_path lg) +:+ Str.lines_text rs
        ∧ writable w' (file_path lg) = true.
Proof.
  intros Hbs Hb. revert w. induction rs as [|r rs IH]; intros w Hw.
  - exists w. cbn. by rewrite append_nil_r.
  - cbn [write_all]. unfold bind at 1.
    rewrite write_record_with_buffer_flush
      by (by try apply full_after_nonpositive).
    assert (with_buffer [] lg = lg) as -> by (by rewrite <- Hb, with_buffer_id).
    rewrite Hb. cbn [app].
    destruct (IH (appended (file_path lg) (Str.lines_text [r]) w))
      as (w' & Hrun & Hc & Hw'); [by apply appended_writable |].
    exists w'. split; [done |]. split; [| done].
    rewrite Hc, appended_content.
    change (r :: rs) with ([r] ++ rs).
    by rewrite (lines_text_app [r] rs), append_assoc.
Qed.

Lemma init_returned_writable
    (fn mp : string) (bs : Z) (hs : option (list string))
    (w w' : world) (lg : LoggerCSV) :
  __init__ fn mp bs hs w = (Return lg, w') →
  writable w (mp +:+ "/" +:+ fn) = true →
  writable w' (mp +:+ "/" +:+ fn) = true.
Proof.
  intros Hinit Hw.
  destruct (init_returned_cases _ _ _ _ _ _ _ Hinit)
    as [[_ ->]|(cols & _ & _ & ->)]; [done |].
  apply writable_inv in Hw as (Ho & Hw & _).
  unfold writable, created. cbn. rewrite lookup_insert_eq.
  by rewrite !bool_decide_eq_true_2.
Qed.

End nonpositive_capacity.

(** C10.  The constructor does not look at the capacity: with the mount
    point in place and a healthy device it returns a logger for any
    [buffer_size] at or below zero.  On such a logger every buffered write
    finds the buffer full right after its append and runs the flush within
    the call, so the buffer is empty whenever a call returns; and on a
    healthy device a run of buffered writes puts every record in the
    file, in order. *)
Theorem C10_nonpositive_capacity
    (fn mp : string) (bs : Z) (hs : option (list string)) (w : world) :
  bs ≤ 0 →
  is_Some (nodes w !! mp) →
  writable w (mp +:+ "/" +:+ fn) = true →
  (∃ w0, __init__ fn mp bs hs w = (Return (new_logger fn mp bs hs), w0)
         ∧ ∀ rs : list string,
             ∃ w', write_all rs (new_logger fn mp bs hs, w0)
                   = (Return tt, (new_logger fn mp bs hs, w'))
                   ∧ content w' (mp +:+ "/" +:+ fn)
                     = content w0 (mp +:+ "/" +:+ fn) +:+ Str.lines_text rs)
  ∧ ∀ (lg : LoggerCSV) (w1 : world) (r : string),
      buffer_size lg ≤ 0 →
      full_after lg r = true
      ∧ write_record_with_buffer r (lg, w1)
        = _write_buffer_to_file (with_buffer (buffer lg ++ [r]) lg, w1)
      ∧ buffer (fst (snd (write_record_with_buffer r (lg, w1)))) = [].
Proof.
  intros Hbs Hmp Hw. split.
  - pose proof Hw as (Ho & Hwf & _)%writable_inv.
    destruct (init_succeeds fn mp bs hs w Hmp Ho Hwf) as (w0 & Hinit).
    exists w0. split; [done |]. intros rs.
    pose proof (init_returned_writable _ _ _ _ _ _ _ Hinit Hw) as Hw0.
    destruct (write_all_nonpositive rs (new_logger fn mp bs hs) w0)
      as (w' & Hrun & Hc & _); [done | done | done |].
    by exists w'.
  - intros lg w1 r Hlg.
    pose proof (full_after_nonpositive lg r Hlg) as Hf.
    split; [done |]. split.
    + by rewrite write_record_with_buffer_unfold, Hf.
    + by rewrite write_record_with_buffer_self, Hf.
Qed.

Lemma C10_nonpositive_capacity_witness :
  (∃ w0, __init__ "sensor.csv" "sd" 0 (Some ["date"; "value"]) card
         = (Return (new_logger "sensor.csv" "sd" 0 (Some ["date"; "value"])), w0)
         ∧ ∀ rs : list string,
             ∃ w', write_all rs
                     (new_logger "sensor.csv" "sd" 0 (Some ["date"; "value"]), w0)
                   = (Return tt,
                      (new_logger "sensor.csv" "sd" 0 (Some ["date"; "value"]), w'))
                   ∧ content w' ("sd" +:+ "/" +:+ "sensor.csv")
                     = content w0 ("sd" +:+ "/" +:+ "sensor.csv")
                       +:+ Str.lines_text rs)
  ∧ ∀ (lg : LoggerCSV) (w1 : world) (r : string),
      buffer_size lg ≤ 0 →
      full_after lg r = true
      ∧ write_record_with_buffer r (lg, w1)
        = _write_buffer_to_file (with_buffer (buffer lg ++ [r]) lg, w1)
      ∧ buffer (fst (snd (write_record_with_buffer r (lg, w1)))) = [].
Proof.
  apply (C10_nonpositive_capacity "sensor.csv" "sd" 0 (Some ["date"; "value"]) card).
  - lia.
  - by eexists.
  - reflexivity.
Defined.

(** * Further properties of the code *)

(** ** Line feeds and lines *)

Section line_counting.

Lemma newline_free_count (s : string) : newline_free s ↔ count_lf s = 0%nat.
Proof.
  unfold newline_free. induction s as [|c s IH]; [done |].
  rewrite str_in_nl_cons. cbn [count_lf].
  destruct (Ascii.eqb c Str.LF); cbn; [split; [done | lia] |].
  by rewrite IH.
Qed.

Lemma readlines_line_length (r rest : string) :
  length (Str.readlines (r +:+ Str.nl +:+ rest))
  = S (count_lf r + length (Str.readlines rest)).
Proof.
  induction r as [|c r IH]; [done |].
  rewrite append_cons. cbn [Str.readlines count_lf].
  destruct (Ascii.eqb c Str.LF); cbn [length]; [rewrite IH; lia |].
  destruct (Str.readlines (r +:+ Str.nl +:+ rest)) as [|l ls];
    cbn [length] in *; [lia | lia].
Qed.

Lemma readlines_lines_text_length (rs : list string) :
  length (Str.readlines (Str.lines_text rs))
  = (length rs + sum_list (count_lf <$> rs))%nat.
Proof.
  induction rs as [|r rs IH]; [done |].
  cbn [Str.lines_text]. rewrite readlines_line_length, IH. cbn. lia.
Qed.

Lemma sum_count_lf_zero (rs : list string) :
  sum_list (count_lf <$> rs) = 0%nat → Forall newline_free rs.
Proof.
  induction rs as [|r rs IH]; [by constructor |]. cbn. intros H.
  constructor; [apply newline_free_count; lia | apply IH; lia].
Qed.

End line_counting.

(** X1.  [_validate_record] returns normally exactly on the records without
    a line feed, and never changes the object or the filesystem.  The
    records it accepts are exactly those that, once terminated by the line
    feed the write paths add, read back as the single line they are; a
    record it rejects reads back as two lines or more. *)
Theorem X1_validate_record_guards_framing (record : string) (s : state) :
  snd (_validate_record record s) = s
  ∧ (fst (_validate_record record s) = Return tt
     ↔ Str.readlines (record +:+ Str.nl) = [record])
  ∧ (fst (_validate_record record s)
     = Raise (InvalideRecordError "Record cannot contain newline characters")
     ↔ (2 ≤ length (Str.readlines (record +:+ Str.nl)))%nat).
Proof.
  pose proof (readlines_line_length record "") as Hlen.
  change (record +:+ Str.nl +:+ "") with (record +:+ Str.nl) in Hlen.
  cbn [Str.readlines length] in Hlen. rewrite Nat.add_0_r in Hlen.
  destruct (newline_free_count record) as [Hfree0 Hfree1].
  unfold newline_free in Hfree0, Hfree1. unfold _validate_record.
  destruct (Str.str_in Str.nl record) eqn:Hin; cbn.
  - split; [done |]. split.
    + split; [done |]. intros Heq. rewrite Heq in Hlen. cbn in Hlen.
      assert (count_lf record = 0%nat) as H0 by lia.
      by specialize (Hfree1 H0).
    + split; [| done]. intros _.
      destruct (count_lf record) eqn:Hc; [| lia].
      by specialize (Hfree1 eq_refl).
  - split; [done |]. split.
    + split; [| done]. intros _. exact (readlines_line record "" Hin).
    + split; [done |]. intros H2. specialize (Hfree0 eq_refl). lia.
Qed.

(** X2.  Serialization round trip: for a non-empty buffer, reading the
    text built by [_serialize_buffer] back line by line gives the buffered
    records exactly when none of them contains a line feed; in general the
    text has one line per record plus one per embedded line feed. *)
Theorem X2_serialize_round_trip (lg : LoggerCSV) (w : world) :
  buffer lg ≠ [] →
  ∃ text, _serialize_buffer (lg, w) = (Return text, (with_buffer [] lg, w))
          ∧ length (Str.readlines text)
            = (length (buffer lg) + sum_list (count_lf <$> buffer lg))%nat
          ∧ (Str.readlines text = buffer lg ↔ Forall newline_free (buffer lg)).
Proof.
  intros Hne. exists (Str.join Str.nl (buffer lg) +:+ Str.nl).
  split; [done |]. rewrite join_nl_lines_text by done.
  split; [apply readlines_lines_text_length |].
  split; [| apply readlines_lines_text].
  intros Heq. apply sum_count_lf_zero.
  pose proof (readlines_lines_text_length (buffer lg)) as Hlen.
  rewrite Heq in Hlen. lia.
Qed.

Lemma X2_serialize_round_trip_witness :
  ∃ text, _serialize_buffer (with_buffer ["a"; "b" +:+ Str.nl +:+ "c"] sensor_logger,
                             card)
          = (Return text, (sensor_logger, card))
          ∧ length (Str.readlines text)
            = (2 + sum_list (count_lf <$> ["a"; "b" +:+ Str.nl +:+ "c"]))%nat
          ∧ (Str.readlines text = ["a"; "b" +:+ Str.nl +:+ "c"]
             ↔ Forall newline_free ["a"; "b" +:+ Str.nl +:+ "c"]).
Proof.
  apply (X2_serialize_round_trip
           (with_buffer ["a"; "b" +:+ Str.nl +:+ "c"] sensor_logger) card).
  discriminate.
Defined.

(** ** Every outcome of the constructor *)

Section construction_failures.

Variables (fn mp : string) (bs : Z) (cols : list string).

Lemma init_header_open_fails (w : world) :
  is_Some (nodes w !! mp) →
  nodes w !! (mp +:+ "/" +:+ fn) = None →
  (mp +:+ "/" +:+ fn ∈ open_fails w) →
  __init__ fn mp bs (Some cols) w
  = (Raise OSError,
     log (sys_open (mp +:+ "/" +:+ fn) mode_w)
       (log (sys_stat (mp +:+ "/" +:+ fn)) (log (sys_stat mp) w))).
Proof.
  intros [n Hmp] Hp Ho.
  unfold __init__, _post_init, _verify_sd_mounted, _create_csv_with_headers,
    _file_exists, bind, get_self, try_except_OSError, io, raise, ret,
    Sys.os_stat. cbn. rewrite Hmp. cbn. rewrite Hp. cbn.
  unfold Sys.with_open_write, bind, finally, Sys.open, Sys.write, Sys.close.
  cbn. by rewrite decide_True by done.
Qed.

Lemma init_header_write_fails (w : world) :
  is_Some (nodes w !! mp) →
  nodes w !! (mp +:+ "/" +:+ fn) = None →
  (mp +:+ "/" +:+ fn ∉ open_fails w) →
  (mp +:+ "/" +:+ fn ∈ write_fails w) →
  __init__ fn mp bs (Some cols) w
  = (Raise OSError,
     World (<[mp +:+ "/" +:+ fn
              := File (Str.take (budget w (mp +:+ "/" +:+ fn))
                         (Str.join ";" cols +:+ Str.nl))]> (nodes w))
       (open_fails w) (write_fails w) (write_budget w)
       (trace w ++ [sys_stat mp; sys_stat (mp +:+ "/" +:+ fn);
                    sys_open (mp +:+ "/" +:+ fn) mode_w;
                    sys_write (mp +:+ "/" +:+ fn)
                      (Str.join ";" cols +:+ Str.nl);
                    sys_close (mp +:+ "/" +:+ fn)])).
Proof.
  intros [n Hmp] Hp Ho Hw.
  unfold __init__, _post_init, _verify_sd_mounted, _create_csv_with_headers,
    _file_exists, bind, get_self, try_except_OSError, io, raise, ret,
    Sys.os_stat. cbn. rewrite Hmp. cbn. rewrite Hp. cbn.
  unfold Sys.with_open_write, bind, finally, Sys.open, Sys.write, Sys.close.
  cbn. rewrite decide_False by done. rewrite Hp. cbn.
  rewrite lookup_insert_eq. cbn. rewrite decide_True by done. cbn.
  unfold set_node, log, budget. cbn.
  by rewrite insert_insert_eq, <- !app_assoc.
Qed.

End construction_failures.

(** X3.  How a construction ends, on any filesystem.  Without anything at
    the mount point it raises [SDNotMountedError] naming the mount point.
    Otherwise it returns the new object, unless the header has to be
    written (columns supplied, nothing at the file's path) and the device
    refuses the open or the write: that [OSError] leaves the constructor
    as it is. *)
Theorem X3_construction_outcomes
    (fn mp : string) (bs : Z) (hs : option (list string)) (w : world) :
  fst (__init__ fn mp bs hs w)
  = match nodes w !! mp with
    | None =>
        Raise (SDNotMountedError ("Mount point '" +:+ mp +:+ "' not found"))
    | Some _ =>
        match hs, nodes w !! (mp +:+ "/" +:+ fn) with
        | Some _, None =>
            if decide ((mp +:+ "/" +:+ fn ∈ open_fails w)
                       ∨ (mp +:+ "/" +:+ fn ∈ write_fails w))
            then Raise OSError
            else Return (new_logger fn mp bs hs)
        | _, _ => Return (new_logger fn mp bs hs)
        end
    end.
Proof.
  destruct (nodes w !! mp) as [n|] eqn:Hmp; [| by rewrite init_unmounted].
  assert (is_Some (nodes w !! mp)) as Hmp' by (by rewrite Hmp).
  destruct hs as [cols|].
  - destruct (nodes w !! (mp +:+ "/" +:+ fn)) as [n'|] eqn:Hp.
    + rewrite init_no_header; [done | done |]. left. by rewrite Hp.
    + destruct (decide _) as [Hfault|Hok].
      * by apply (init_header_fails fn mp bs (Some cols) w cols).
      * assert (mp +:+ "/" +:+ fn ∉ open_fails w) as Ho
          by (intros ?; apply Hok; by left).
        assert (mp +:+ "/" +:+ fn ∉ write_fails w) as Hw
          by (intros ?; apply Hok; by right).
        by rewrite (init_header fn mp bs (Some cols) w cols).
  - rewrite init_no_header; [| done | by right].
    by destruct (nodes w !! (mp +:+ "/" +:+ fn)).
Qed.

(** X4.  Whatever its outcome, a construction removes and alters nothing
    that was on the filesystem: every file and directory present before is
    present, with the same content, afterwards. *)
Theorem X4_construction_keeps_existing_nodes
    (fn mp : string) (bs : Z) (hs : option (list string)) (w : world) :
  nodes w ⊆ nodes (snd (__init__ fn mp bs hs w)).
Proof.
  destruct (nodes w !! mp) as [n|] eqn:Hmp; [| by rewrite init_unmounted].
  assert (is_Some (nodes w !! mp)) as Hmp' by (by rewrite Hmp).
  destruct (nodes w !! (mp +:+ "/" +:+ fn)) as [n'|] eqn:Hp.
  { rewrite init_no_header; [done | done |]. left. by rewrite Hp. }
  destruct hs as [cols|]; [| by rewrite init_no_header; [| | right]].
  destruct (decide (mp +:+ "/" +:+ fn ∈ open_fails w)) as [Ho|Ho].
  { by rewrite init_header_open_fails. }
  destruct (decide (mp +:+ "/" +:+ fn ∈ write_fails w)) as [Hw|Hw].
  { rewrite init_header_write_fails by done. cbn. by apply insert_subseteq. }
  rewrite (init_header fn mp bs (Some cols) w cols) by done. cbn.
  by apply insert_subseteq.
Qed.



(** ** The write paths on any device *)

Section any_device.

(** What the [with] block of the write paths does on any device: either
    the open is refused and nothing else happens, or the file is opened,
    written to and closed, the close taking place also when the write is
    what raises. *)
Lemma with_open_write_append_trace (w : world) (p d : string) :
  ((p ∈ open_fails w) ∨ nodes w !! p = Some Dir)
  ∧ Sys.with_open_write p mode_a d w = (Raise OSError, log (sys_open p mode_a) w)
  ∨ (p ∉ open_fails w) ∧ nodes w !! p ≠ Some Dir
    ∧ events_since w (snd (Sys.with_open_write p mode_a d w))
      = [sys_open p mode_a; sys_write p d; sys_close p].
Proof.
  unfold Sys.with_open_write, bind, finally, Sys.open, Sys.write, Sys.close.
  cbn. destruct (decide (p ∈ open_fails w)) as [Ho|Ho]; [left; by split; [left |] |].
  destruct (nodes w !! p) as [[|c]|] eqn:Hp; cbn.
  - left. by split; [right |].
  - right. split; [done |]. split; [done |]. rewrite Hp. cbn.
    destruct (decide (p ∈ write_fails w)); cbn;
      apply events_since_app; cbn; by rewrite <- !app_assoc.
  - right. split; [done |]. split; [done |]. rewrite lookup_insert_eq. cbn.
    destruct (decide (p ∈ write_fails w)); cbn;
      apply events_since_app; cbn; by rewrite <- !app_assoc.
Qed.

(** It touches no path but its own. *)
Lemma with_open_write_other (w : world) (p d q : string) (m : mode) :
  q ≠ p → nodes (snd (Sys.with_open_write p m d w)) !! q = nodes w !! q.
Proof.
  intros Hq.
  unfold Sys.with_open_write, bind, finally, Sys.open, Sys.write, Sys.close.
  cbn. destruct (decide (p ∈ open_fails w)); [done |].
  destruct (nodes w !! p) as [[|c]|] eqn:Hp, m; cbn; try done;
    rewrite ?Hp, ?lookup_insert_eq; cbn;
    destruct (decide (p ∈ write_fails w)); cbn;
    by rewrite ?lookup_insert_ne by done.
Qed.

(** And it only ever adds to the end of the text at its own path. *)
Lemma with_open_write_append_extends (w : world) (p d : string) :
  ∃ suffix, content (snd (Sys.with_open_write p mode_a d w)) p
            = content w p +:+ suffix.
Proof.
  destruct (writable w p) eqn:Hw.
  - exists d. rewrite with_open_write_append by done. apply appended_content.
  - destruct (with_open_write_append_fails w p d Hw) as (w' & k & -> & Hc).
    by exists (Str.take k d).
Qed.

Lemma write_buffer_to_file_unfold (lg : LoggerCSV) (w : world) :
  _write_buffer_to_file (lg, w)
  = (fst (Sys.with_open_write (file_path lg) mode_a
            (Str.join Str.nl (buffer lg) +:+ Str.nl) w),
     (with_buffer [] lg,
      snd (Sys.with_open_write (file_path lg) mode_a
             (Str.join Str.nl (buffer lg) +:+ Str.nl) w))).
Proof.
  unfold _write_buffer_to_file, _serialize_buffer, bind, get_self,
    set_buffer, ret, io, gc_collect. cbn.
  by destruct (Sys.with_open_write _ _ _ _) as [[[]|e] w'].
Qed.

Lemma write_record_unfold (lg : LoggerCSV) (w : world) (r : string) :
  write_record r (lg, w)
  = (fst (Sys.with_open_write (file_path lg) mode_a (r +:+ Str.nl) w),
     (lg, snd (Sys.with_open_write (file_path lg) mode_a (r +:+ Str.nl) w))).
Proof.
  unfold write_record, bind, get_self, io. cbn.
  by destruct (Sys.with_open_write _ _ _ _) as [r' w'].
Qed.

Lemma invoke_self (c : call) (s : state) :
  ∃ b, fst (snd (invoke c s)) = with_buffer b (fst s).
Proof.
  destruct s as [lg w]. destruct c as [r|r|]; cbn [invoke].
  - eexists. apply write_record_with_buffer_self.
  - exists (buffer lg). by rewrite write_record_self, with_buffer_id.
  - exists []. apply del_self.
Qed.

(** The filesystem after a call is the one before it, or the one a [with]
    block on the log file left. *)
Lemma invoke_world (c : call) (lg : LoggerCSV) (w : world) :
  snd (snd (invoke c (lg, w))) = w
  ∨ ∃ d, snd (snd (invoke c (lg, w)))
         = snd (Sys.with_open_write (file_path lg) mode_a d w).
Proof.
  destruct c as [r|r|]; cbn [invoke].
  - rewrite write_record_with_buffer_unfold.
    destruct (full_after lg r); [| by left].
    right. rewrite write_buffer_to_file_unfold. cbn. by eexists.
  - right. rewrite write_record_unfold. cbn. by eexists.
  - destruct (buffer lg) as [|x b] eqn:Hb.
    + left. by rewrite del_empty.
    + right. rewrite del_unfold by (by rewrite Hb).
      rewrite write_buffer_to_file_unfold. cbn. by eexists.
Qed.

Lemma boundaries_invariant (P : state → Prop) (calls : list call) (s : state) :
  (∀ c s', P s' → P (snd (invoke c s'))) →
  P s → Forall P (boundaries calls s).
Proof.
  intros Hstep. revert s. induction calls as [|c calls IH]; intros s Hs; cbn.
  - by constructor.
  - constructor; [done |]. by apply IH, Hstep.
Qed.

End any_device.

(** X6.  The log is append-only and the logger keeps to its own file: at
    every boundary of any run of public calls, on any device and whether
    or not calls raised, the text at the logger's path is the text it
    started with followed by something, and every other path holds what
    it held. *)
Theorem X6_log_is_append_only
    (lg : LoggerCSV) (w : world) (calls : list call) :
  Forall (λ s : state,
            (∃ suffix, content (snd s) (file_path lg)
                       = content w (file_path lg) +:+ suffix)
            ∧ ∀ q, q ≠ file_path lg → nodes (snd s) !! q = nodes w !! q)
    (boundaries calls (lg, w)).
Proof.
  apply (Forall_impl
           (λ s : state,
              file_path (fst s) = file_path lg
              ∧ (∃ suffix, content (snd s) (file_path lg)
                           = content w (file_path lg) +:+ suffix)
              ∧ ∀ q, q ≠ file_path lg → nodes (snd s) !! q = nodes w !! q));
    [| by intros s (_ & ? & ?)].
  apply boundaries_invariant.
  - intros c [lg1 w1] (Hpath & [suffix Hc] & Hother). cbn in Hpath, Hc, Hother.
    split.
    { destruct (invoke_self c (lg1, w1)) as [b ->]. done. }
    destruct (invoke_world c lg1 w1) as [->|[d ->]]; cbn.
    { split; [by exists suffix | done]. }
    rewrite Hpath. split.
    + destruct (with_open_write_append_extends w1 (file_path lg) d) as [x ->].
      exists (suffix +:+ x). by rewrite Hc, append_assoc.
    + intros q Hq. by rewrite with_open_write_other, Hother.
  - cbn. split; [done |]. split; [| done]. exists "". by rewrite append_nil_r.
Qed.

(** X7.  Whenever a write path opened the file it has closed it by the
    time the call ends, also when the write itself is what raises: an
    immediate write or a flush makes either a lone refused open, or an
    open in append mode, one write and one close, in that order. *)
Theorem X7_file_closed_on_every_path
    (lg : LoggerCSV) (w : world) (record : string) :
  (events_since w (snd (snd (write_record record (lg, w))))
   = [sys_open (file_path lg) mode_a]
   ∧ fst (write_record record (lg, w)) = Raise OSError
   ∨ events_since w (snd (snd (write_record record (lg, w))))
     = [sys_open (file_path lg) mode_a;
        sys_write (file_path lg) (record +:+ Str.nl);
        sys_close (file_path lg)])
  ∧ (events_since w (snd (snd (_write_buffer_to_file (lg, w))))
     = [sys_open (file_path lg) mode_a]
     ∧ fst (_write_buffer_to_file (lg, w)) = Raise OSError
     ∨ events_since w (snd (snd (_write_buffer_to_file (lg, w))))
       = [sys_open (file_path lg) mode_a;
          sys_write (file_path lg) (Str.join Str.nl (buffer lg) +:+ Str.nl);
          sys_close (file_path lg)]).
Proof.
  split.
  - rewrite write_record_unfold. cbn.
    destruct (with_open_write_append_trace w (file_path lg) (record +:+ Str.nl))
      as [[_ ->]|(_ & _ & ->)]; [left | by right].
    split; [| done]. by apply events_since_app.
  - rewrite write_buffer_to_file_unfold. cbn.
    destruct (with_open_write_append_trace w (file_path lg)
                (Str.join Str.nl (buffer lg) +:+ Str.nl))
      as [[_ ->]|(_ & _ & ->)]; [left | by right].
    split; [| done]. by apply events_since_app.
Qed.

(** X8.  Nothing but the buffer ever changes on the object: at every
    boundary of any run of public calls the file name, mount point, file
    path, headers, delimiter and capacity are those the run started
    with. *)
Theorem X8_settings_never_change
    (lg : LoggerCSV) (w : world) (calls : list call) :
  Forall (λ s : state, same_settings (fst s) lg) (boundaries calls (lg, w)).
Proof.
  apply boundaries_invariant; [| done].
  intros c s Hs. destruct (invoke_self c s) as [b ->].
  by destruct Hs as (? & ? & ? & ? & ? & ?).
Qed.

(** ** Mixing the two write paths *)

Section mixing.

Lemma lines_text_cons (r : string) (rs : list string) :
  Str.lines_text (r :: rs) = Str.lines_text [r] +:+ Str.lines_text rs.
Proof. exact (lines_text_app [r] rs). Qed.

(** A run of public calls on a healthy device never raises, and the lines
    it has put in the file together with the records it still holds are
    the records it was given, each exactly once. *)
Lemma run_calls_spec (calls : list call) (lg : LoggerCSV) (w : world) :
  writable w (file_path lg) = true →
  ∃ out pend w',
    run_calls calls (lg, w) = (Return tt, (with_buffer pend lg, w'))
    ∧ content w' (file_path lg) = content w (file_path lg) +:+ Str.lines_text out
    ∧ out ++ pend ≡ₚ buffer lg ++ records_of calls
    ∧ writable w' (file_path lg) = true.
Proof.
  revert lg w. induction calls as [|c calls IH]; intros lg w Hw.
  { exists [], (buffer lg), w. cbn. rewrite with_buffer_id, app_nil_r.
    by rewrite append_nil_r. }
  cbn [run_calls]. unfold bind at 1. destruct c as [r|r|]; cbn [invoke records_of].
  - destruct (full_after lg r) eqn:Hf.
    + rewrite write_record_with_buffer_flush by done.
      destruct (IH (with_buffer [] lg)
                  (appended (file_path lg) (Str.lines_text (buffer lg ++ [r])) w))
        as (out & pend & w' & Hrun & Hc & Hperm & Hw');
        [by apply appended_writable |].
      cbn in Hrun, Hc, Hperm, Hw'.
      exists ((buffer lg ++ [r]) ++ out), pend, w'. rewrite Hrun.
      split; [done |]. split.
      { by rewrite Hc, appended_content,
          (lines_text_app (buffer lg ++ [r]) out), append_assoc. }
      split; [| done].
      rewrite <- app_assoc, Hperm, <- app_assoc. done.
    + rewrite write_record_with_buffer_hold by done.
      destruct (IH (with_buffer (buffer lg ++ [r]) lg) w Hw)
        as (out & pend & w' & Hrun & Hc & Hperm & Hw').
      cbn in Hrun, Hc, Hperm, Hw'.
      exists out, pend, w'. rewrite Hrun.
      split; [done |]. split; [done |]. split; [| done].
      by rewrite Hperm, <- app_assoc.
  - rewrite write_record_ok by done.
    destruct (IH lg (appended (file_path lg) (r +:+ Str.nl) w))
      as (out & pend & w' & Hrun & Hc & Hperm & Hw');
      [by apply appended_writable |].
    exists (r :: out), pend, w'. rewrite Hrun.
    split; [done |]. split.
    { rewrite Hc, appended_content, lines_text_cons. cbn [Str.lines_text].
      by rewrite !append_assoc. }
    split; [| done].
    cbn [app]. rewrite Hperm. apply Permutation_middle.
  - destruct (del_spec lg w Hw) as (w1 & -> & Hc1 & Hw1).
    destruct (IH (with_buffer [] lg) w1 Hw1)
      as (out & pend & w' & Hrun & Hc & Hperm & Hw').
    cbn in Hrun, Hc, Hperm, Hw'.
    exists (buffer lg ++ out), pend, w'. rewrite Hrun.
    split; [done |]. split.
    { by rewrite Hc, Hc1, (lines_text_app (buffer lg) out), append_assoc. }
    split; [| done]. by rewrite <- app_assoc, Hperm.
Qed.

End mixing.

(** X9.  An immediate write overtakes the records waiting in the buffer:
    on a healthy device, after [write_record] and then the deletion of the
    object, the file has gained the immediate record first and the
    records that were already pending, submitted earlier, after it. *)
Theorem X9_immediate_write_overtakes_pending
    (lg : LoggerCSV) (w : world) (record : string) :
  newline_free record →
  Forall newline_free (buffer lg) →
  writable w (file_path lg) = true →
  ∃ w', (let* _ := write_record record in __del__) (lg, w)
        = (Return tt, (with_buffer [] lg, w'))
        ∧ content w' (file_path lg)
          = content w (file_path lg) +:+ Str.lines_text (record :: buffer lg)
        ∧ Str.readlines (Str.lines_text (record :: buffer lg))
          = record :: buffer lg.
Proof.
  intros Hr Hb Hw. unfold bind. rewrite write_record_ok by done.
  destruct (del_spec lg (appended (file_path lg) (record +:+ Str.nl) w))
    as (w' & -> & Hc & _); [by apply appended_writable |].
  exists w'. split; [done |]. split.
  - rewrite Hc, appended_content, (lines_text_cons record).
    cbn [Str.lines_text]. by rewrite !append_assoc.
  - apply readlines_lines_text. by constructor.
Qed.

Lemma X9_immediate_write_overtakes_pending_witness :
  ∃ w', (let* _ := write_record "late but urgent" in __del__)
          (with_buffer ["early 1"; "early 2"] sensor_logger, card_with_header)
        = (Return tt, (sensor_logger, w'))
        ∧ content w' "sd/sensor.csv"
          = content card_with_header "sd/sensor.csv"
            +:+ Str.lines_text ["late but urgent"; "early 1"; "early 2"]
        ∧ Str.readlines (Str.lines_text ["late but urgent"; "early 1"; "early 2"])
          = ["late but urgent"; "early 1"; "early 2"].
Proof.
  apply (X9_immediate_write_overtakes_pending
           (with_buffer ["early 1"; "early 2"] sensor_logger) card_with_header
           "late but urgent").
  - reflexivity.
  - repeat constructor.
  - reflexivity.
Defined.

(** X10.  No record is lost or duplicated by mixing the paths: on a
    healthy device any run of buffered writes, immediate writes and
    deletions on a fresh logger returns normally, and once the object is
    deleted the lines added to the file are the submitted records, each
    exactly once (in an order that may differ from the call order). *)
Theorem X10_mixed_run_keeps_every_record
    (lg : LoggerCSV) (w : world) (calls : list call) :
  buffer lg = [] →
  writable w (file_path lg) = true →
  ∃ out w',
    (let* _ := run_calls calls in __del__) (lg, w)
    = (Return tt, (with_buffer [] lg, w'))
    ∧ content w' (file_path lg) = content w (file_path lg) +:+ Str.lines_text out
    ∧ out ≡ₚ records_of calls.
Proof.
  intros Hb Hw.
  destruct (run_calls_spec calls lg w Hw)
    as (out & pend & w1 & Hrun & Hc & Hperm & Hw1).
  destruct (del_spec (with_buffer pend lg) w1 Hw1) as (w' & Hdel & Hc' & _).
  cbn in Hdel, Hc'. rewrite Hb in Hperm. cbn in Hperm.
  exists (out ++ pend), w'. unfold bind. rewrite Hrun.
  split; [done |]. split; [| done].
  by rewrite Hc', Hc, (lines_text_app out pend), append_assoc.
Qed.

Lemma X10_mixed_run_keeps_every_record_witness :
  ∃ out w',
    (let* _ := run_calls [call_write_record_with_buffer "a";
                          call_write_record "b";
                          call_write_record_with_buffer "c";
                          call_del;
                          call_write_record_with_buffer "d"] in __del__)
      (sensor_logger, card)
    = (Return tt, (with_buffer [] sensor_logger, w'))
    ∧ content w' (file_path sensor_logger)
      = content card (file_path sensor_logger) +:+ Str.lines_text out
    ∧ out ≡ₚ records_of [call_write_record_with_buffer "a";
                         call_write_record "b";
                         call_write_record_with_buffer "c";
                         call_del;
                         call_write_record_with_buffer "d"].
Proof.
  apply (X10_mixed_run_keeps_every_record sensor_logger card); reflexivity.
Defined.

(** ** How often the card is written *)

Section wear.

Lemma writes_of_app (xs ys : list syscall) :
  writes_of (xs ++ ys) = writes_of xs ++ writes_of ys.
Proof.
  induction xs as [|[] xs IH]; cbn; [done | done | done | | done | done].
  by rewrite IH.
Qed.

(** Starting with [b] records pending out of a capacity [c], [n] buffered
    writes on a healthy device make [(b + n) / c] writes to the card and
    leave [(b + n) mod c] records pending. *)
Lemma write_all_wear (rs : list string) (lg : LoggerCSV) (w : world) :
  1 ≤ buffer_size lg →
  Z.of_nat (length (buffer lg)) < buffer_size lg →
  writable w (file_path lg) = true →
  ∃ pend w' evs,
    write_all rs (lg, w) = (Return tt, (with_buffer pend lg, w'))
    ∧ trace w' = trace w ++ evs
    ∧ Z.of_nat (length (writes_of evs))
      = (Z.of_nat (length (buffer lg)) + Z.of_nat (length rs)) / buffer_size lg
    ∧ Z.of_nat (length pend)
      = (Z.of_nat (length (buffer lg)) + Z.of_nat (length rs)) mod buffer_size lg.
Proof.
  intros Hcap. revert lg w Hcap.
  induction rs as [|r rs IH]; intros lg w Hcap Hlen Hw.
  { exists (buffer lg), w, []. cbn. rewrite with_buffer_id, app_nil_r.
    rewrite Z.add_0_r. split; [done |]. split; [done |].
    rewrite Z.div_small, Z.mod_small by lia. done. }
  cbn [write_all]. unfold bind at 1.
  destruct (full_after lg r) eqn:Hf.
  - rewrite write_record_with_buffer_flush by done.
    assert (Z.of_nat (length (buffer lg)) + 1 = buffer_size lg) as Hfull.
    { unfold full_after in Hf. rewrite length_app in Hf. cbn in Hf.
      apply Z.geb_le in Hf. lia. }
    destruct (IH (with_buffer [] lg)
                (appended (file_path lg) (Str.lines_text (buffer lg ++ [r])) w))
      as (pend & w' & evs & Hrun & Htr & Hwr & Hpend);
      [done | cbn; lia | by apply appended_writable |].
    cbn in Hrun, Htr, Hwr, Hpend.
    exists pend, w', ([sys_open (file_path lg) mode_a;
                       sys_write (file_path lg)
                         (Str.lines_text (buffer lg ++ [r]));
                       sys_close (file_path lg)] ++ evs).
    rewrite Hrun. split; [done |]. split; [by rewrite Htr, <- app_assoc |].
    rewrite writes_of_app. cbn [writes_of app length].
    replace (Z.of_nat (length (buffer lg)) + Z.of_nat (S (length rs)))
      with (Z.of_nat (length rs) + 1 * buffer_size lg) by lia.
    rewrite Z.div_add, Z.mod_add by lia.
    change (Z.of_nat 0) with 0 in Hwr, Hpend. rewrite Z.add_0_l in Hwr, Hpend.
    split; [lia | done].
  - rewrite write_record_with_buffer_hold by done.
    assert (Z.of_nat (length (buffer lg)) + 1 < buffer_size lg) as Hroom.
    { unfold full_after in Hf. rewrite length_app in Hf. cbn in Hf.
      destruct (Z.geb_spec (Z.of_nat (length (buffer lg) + 1)) (buffer_size lg));
        [done | lia]. }
    destruct (IH (with_buffer (buffer lg ++ [r]) lg) w)
      as (pend & w' & evs & Hrun & Htr & Hwr & Hpend);
      [done | cbn; rewrite length_app; cbn; lia | done |].
    cbn in Hrun, Htr, Hwr, Hpend. rewrite length_app in Hwr, Hpend.
    cbn in Hwr, Hpend.
    exists pend, w', evs. rewrite Hrun.
    split; [done |]. split; [done |]. cbn [length].
    replace (Z.of_nat (length (buffer lg)) + Z.of_nat (S (length rs)))
      with (Z.of_nat (length (buffer lg) + 1) + Z.of_nat (length rs)) by lia.
    done.
Qed.

End wear.

(** X11.  Flash wear of the buffered path: on a healthy device, [n]
    buffered writes on a fresh logger of capacity [c ≥ 1] return normally
    having written to the card exactly [n / c] times; the file has gained
    the first [c * (n / c)] records, in order, and the buffer holds the
    others, the last [n mod c] submitted, in order. *)
Theorem X11_buffered_writes_per_flush
    (lg : LoggerCSV) (w : world) (rs : list string) :
  1 ≤ buffer_size lg →
  buffer lg = [] →
  writable w (file_path lg) = true →
  ∃ w',
    write_all rs (lg, w)
    = (Return tt,
       (with_buffer (drop (flushed_count (buffer_size lg) (length rs)) rs) lg,
        w'))
    ∧ Z.of_nat (length (writes_of (events_since w w')))
      = Z.of_nat (length rs) / buffer_size lg
    ∧ content w' (file_path lg)
      = content w (file_path lg)
        +:+ Str.lines_text (take (flushed_count (buffer_size lg) (length rs)) rs)
    ∧ Z.of_nat (length (drop (flushed_count (buffer_size lg) (length rs)) rs))
      = Z.of_nat (length rs) mod buffer_size lg.
Proof.
  intros Hcap Hb Hw.
  destruct (write_all_wear rs lg w Hcap) as (pend & w' & evs & Hrun & Htr & Hwr & Hp);
    [rewrite Hb; cbn; lia | done |].
  destruct (write_all_spec rs lg w Hw) as (fl & pe & w2 & Hrun2 & Hsplit & Hc & _).
  rewrite Hrun in Hrun2. injection Hrun2 as <- <-.
  rewrite Hb in Hwr, Hp, Hsplit. cbn [length app] in Hwr, Hp, Hsplit.
  change (Z.of_nat 0) with 0 in Hwr, Hp. rewrite Z.add_0_l in Hwr, Hp.
  assert (flushed_count (buffer_size lg) (length rs) = length fl) as ->.
  { unfold flushed_count.
    assert (buffer_size lg ≠ 0) as Hnz by lia.
    pose proof (Z.div_mod (Z.of_nat (length rs)) (buffer_size lg) Hnz) as Hdm.
    assert (length rs = (length fl + length pend)%nat) as Hlen
      by (by rewrite Hsplit, length_app).
    lia. }
  assert (drop (length fl) rs = pend) as ->
    by (by rewrite Hsplit, drop_app_length).
  assert (take (length fl) rs = fl) as ->
    by (by rewrite Hsplit, take_app_length).
  exists w'. split; [done |]. split; [| done].
  by rewrite (events_since_app w w' evs Htr).
Qed.

Lemma X11_buffered_writes_per_flush_witness :
  ∃ w',
    write_all ["r1"; "r2"; "r3"; "r4"; "r5"; "r6"; "r7"] (sensor_logger, card)
    = (Return tt,
       (with_buffer
          (drop (flushed_count 3 (length ["r1"; "r2"; "r3"; "r4"; "r5"; "r6"; "r7"]))
             ["r1"; "r2"; "r3"; "r4"; "r5"; "r6"; "r7"]) sensor_logger,
        w'))
    ∧ Z.of_nat (length (writes_of (events_since card w')))
      = Z.of_nat (length ["r1"; "r2"; "r3"; "r4"; "r5"; "r6"; "r7"]) / 3
    ∧ content w' (file_path sensor_logger)
      = content card (file_path sensor_logger)
        +:+ Str.lines_text
              (take (flushed_count 3
                       (length ["r1"; "r2"; "r3"; "r4"; "r5"; "r6"; "r7"]))
                 ["r1"; "r2"; "r3"; "r4"; "r5"; "r6"; "r7"])
    ∧ Z.of_nat
        (length
           (drop (flushed_count 3
                    (length ["r1"; "r2"; "r3"; "r4"; "r5"; "r6"; "r7"]))
              ["r1"; "r2"; "r3"; "r4"; "r5"; "r6"; "r7"]))
      = Z.of_nat (length ["r1"; "r2"; "r3"; "r4"; "r5"; "r6"; "r7"]) mod 3.
Proof.
  apply (X11_buffered_writes_per_flush sensor_logger card
           ["r1"; "r2"; "r3"; "r4"; "r5"; "r6"; "r7"]).
  - cbn. lia.
  - reflexivity.
  - reflexivity.
Defined.

(** ** Degenerate capacities and failing devices *)

(** X12.  With a capacity of one or less and nothing pending, a buffered
    write is an immediate write: on every device the two calls end the
    same way and leave the same object and the same filesystem. *)
Theorem X12_capacity_one_is_immediate
    (lg : LoggerCSV) (w : world) (record : string) :
  buffer_size lg ≤ 1 →
  buffer lg = [] →
  write_record_with_buffer record (lg, w) = write_record record (lg, w).
Proof.
  intros Hcap Hb.
  assert (full_after lg record = true) as Hf.
  { unfold full_after. rewrite Hb. cbn. apply Z.geb_le. lia. }
  rewrite write_record_with_buffer_unfold, Hf, write_buffer_to_file_unfold,
    write_record_unfold.
  destruct lg as [name mount path headers delim size pending].
  cbn in Hb. subst pending. reflexivity.
Qed.

Lemma X12_capacity_one_is_immediate_witness :
  write_record_with_buffer "2024-01-01;10"
    (new_logger "sensor.csv" "sd" 1 None, worn_card)
  = write_record "2024-01-01;10" (new_logger "sensor.csv" "sd" 1 None, worn_card).
Proof.
  apply (X12_capacity_one_is_immediate
           (new_logger "sensor.csv" "sd" 1 None) worn_card "2024-01-01;10").
  - cbn. lia.
  - reflexivity.
Defined.

(** X13.  A buffered write whose automatic flush the device refuses raises
    [OSError] with the buffer empty: the pending records and the record
    just submitted are all gone from the logger, whether or not part of
    their block reached the file (the file has gained at most a start of
    it), and a later deletion of the object finds nothing to write. *)
Theorem X13_refused_automatic_flush_drops_records
    (lg : LoggerCSV) (w : world) (record : string) :
  full_after lg record = true →
  writable w (file_path lg) = false →
  ∃ w' k, write_record_with_buffer record (lg, w)
          = (Raise OSError, (with_buffer [] lg, w'))
          ∧ content w' (file_path lg)
            = content w (file_path lg)
              +:+ Str.take k (Str.lines_text (buffer lg ++ [record]))
          ∧ __del__ (with_buffer [] lg, w')
            = (Return tt, (with_buffer [] lg, w')).
Proof.
  intros Hf Hw. rewrite write_record_with_buffer_unfold, Hf.
  destruct (write_buffer_to_file_fails (with_buffer (buffer lg ++ [record]) lg) w)
    as (w' & k & Hrun & Hc); [done |].
  cbn in Hc. rewrite join_nl_lines_text in Hc by (by destruct (buffer lg)).
  exists w', k. split; [done |]. split; [done |]. by apply del_empty.
Qed.

Lemma X13_refused_automatic_flush_drops_records_witness :
  ∃ w' k, write_record_with_buffer "third"
            (with_buffer ["first"; "second"] sensor_logger, worn_card)
          = (Raise OSError, (sensor_logger, w'))
          ∧ content w' "sd/sensor.csv"
            = content worn_card "sd/sensor.csv"
              +:+ Str.take k (Str.lines_text (["first"; "second"] ++ ["third"]))
          ∧ __del__ (sensor_logger, w') = (Return tt, (sensor_logger, w')).
Proof.
  apply (X13_refused_automatic_flush_drops_records
           (with_buffer ["first"; "second"] sensor_logger) worn_card "third");
    reflexivity.
Defined.

(** X14.  A directory sitting at the file's path passes for the log file:
    construction returns without writing a header or changing anything,
    and afterwards every immediate write and every buffered write that
    reaches the flush raises [OSError]. *)
Theorem X14_directory_at_file_path
    (fn mp : string) (bs : Z) (hs : option (list string)) (w : world) :
  is_Some (nodes w !! mp) →
  nodes w !! (mp +:+ "/" +:+ fn) = Some Dir →
  ∃ w', __init__ fn mp bs hs w = (Return (new_logger fn mp bs hs), w')
        ∧ nodes w' = nodes w
        ∧ writes_of (events_since w w') = []
        ∧ ∀ (pend : list string) (record : string),
            fst (write_record record
                   (with_buffer pend (new_logger fn mp bs hs), w'))
            = Raise OSError
            ∧ (full_after (with_buffer pend (new_logger fn mp bs hs)) record
               = true →
               fst (write_record_with_buffer record
                      (with_buffer pend (new_logger fn mp bs hs), w'))
               = Raise OSError).
Proof.
  intros Hmp Hdir. eexists. split.
  { apply init_no_header; [done |]. left. by rewrite Hdir. }
  split; [done |]. split.
  { rewrite (events_since_app w _ [sys_stat mp; sys_stat (mp +:+ "/" +:+ fn)]);
      [done |]. cbn. by rewrite <- app_assoc. }
  intros pend record.
  set (w' := log _ _).
  assert (writable w' (mp +:+ "/" +:+ fn) = false) as Hnw.
  { unfold writable, w'. cbn. rewrite Hdir. by rewrite andb_false_r. }
  split.
  - rewrite write_record_unfold. cbn.
    by destruct (with_open_write_append_fails w' (mp +:+ "/" +:+ fn)
                   (record +:+ Str.nl) Hnw) as (w2 & k & -> & _).
  - intros Hf. rewrite write_record_with_buffer_unfold, Hf.
    set (full := with_buffer _ _).
    by destruct (write_buffer_to_file_fails full w' Hnw) as (w2 & k & -> & _).
Qed.

Lemma X14_directory_at_file_path_witness :
  ∃ w', __init__ "logs" "sd" 3 (Some ["date"; "value"])
          (World {[ "sd" := Dir; "sd/logs" := Dir ]} ∅ ∅ ∅ [])
        = (Return (new_logger "logs" "sd" 3 (Some ["date"; "value"])), w')
        ∧ nodes w' = nodes (World {[ "sd" := Dir; "sd/logs" := Dir ]} ∅ ∅ ∅ [])
        ∧ writes_of (events_since
                       (World {[ "sd" := Dir; "sd/logs" := Dir ]} ∅ ∅ ∅ []) w')
          = []
        ∧ ∀ (pend : list string) (record : string),
            fst (write_record record
                   (with_buffer pend
                      (new_logger "logs" "sd" 3 (Some ["date"; "value"])), w'))
            = Raise OSError
            ∧ (full_after
                 (with_buffer pend
                    (new_logger "logs" "sd" 3 (Some ["date"; "value"]))) record
               = true →
               fst (write_record_with_buffer record
                      (with_buffer pend
                         (new_logger "logs" "sd" 3 (Some ["date"; "value"])), w'))
               = Raise OSError).
Proof.
  apply (X14_directory_at_file_path "logs" "sd" 3 (Some ["date"; "value"])
           (World {[ "sd" := Dir; "sd/logs" := Dir ]} ∅ ∅ ∅ [])).
  - by eexists.
  - reflexivity.
Defined.

(** ** A whole session *)

(** X15.  A whole session on a healthy card with no log file yet:
    construction, any number of buffered writes, deletion.  Nothing
    raises, and the file then reads back as the header line (when headers
    were supplied) followed by the submitted records in call order,
    whatever the capacity, provided neither the joined header nor any
    record contains a line feed. *)
Theorem X15_session_reads_back
    (fn mp : string) (bs : Z) (hs : option (list string))
    (rs : list string) (w : world) :
  is_Some (nodes w !! mp) →
  nodes w !! (mp +:+ "/" +:+ fn) = None →
  writable w (mp +:+ "/" +:+ fn) = true →
  Forall newline_free (header_lines ";" hs) →
  Forall newline_free rs →
  ∃ lg w1 w2,
    __init__ fn mp bs hs w = (Return lg, w1)
    ∧ (let* _ := write_all rs in __del__) (lg, w1) = (Return tt, (lg, w2))
    ∧ Str.readlines (content w2 (mp +:+ "/" +:+ fn)) = header_lines ";" hs ++ rs.
Proof.
  intros Hmp Hp Hw Hhs Hrs.
  pose proof Hw as (Ho & Hwf & _)%writable_inv.
  assert (∃ w1, __init__ fn mp bs hs w = (Return (new_logger fn mp bs hs), w1)
                ∧ content w1 (mp +:+ "/" +:+ fn)
                  = Str.lines_text (header_lines ";" hs)
                ∧ writable w1 (mp +:+ "/" +:+ fn) = true)
    as (w1 & Hinit & Hc1 & Hw1).
  { destruct hs as [cols|].
    - eexists. split; [by apply init_header |]. split.
      + unfold content, created. cbn. rewrite lookup_insert_eq.
        by rewrite append_nil_r.
      + unfold writable, created. cbn. rewrite lookup_insert_eq.
        by rewrite !bool_decide_eq_true_2.
    - eexists. split; [apply init_no_header; [done | by right] |]. split.
      + unfold content. cbn. by rewrite Hp.
      + done. }
  destruct (write_all_spec rs (new_logger fn mp bs hs) w1 Hw1)
    as (fl & pe & w' & Hrun & Hsplit & Hc & Hw').
  destruct (del_spec (with_buffer pe (new_logger fn mp bs hs)) w' Hw')
    as (w2 & Hdel & Hc2 & _).
  cbn in Hsplit, Hc, Hc2.
  exists (new_logger fn mp bs hs), w1, w2. split; [done |].
  split; [unfold bind; by rewrite Hrun, Hdel |].
  rewrite Hc2, Hc, Hc1, append_assoc, <- (lines_text_app fl pe), <- Hsplit.
  rewrite <- lines_text_app. apply readlines_lines_text.
  by apply Forall_app.
Qed.

Lemma X15_session_reads_back_witness :
  ∃ lg w1 w2,
    __init__ "sensor.csv" "sd" 3 (Some ["date"; "value"]) card = (Return lg, w1)
    ∧ (let* _ := write_all ["2024-01-01;10"; "2024-01-01;20"; "2024-01-01;30";
                            "2024-01-02;5"] in __del__) (lg, w1)
      = (Return tt, (lg, w2))
    ∧ Str.readlines (content w2 ("sd" +:+ "/" +:+ "sensor.csv"))
      = header_lines ";" (Some ["date"; "value"])
        ++ ["2024-01-01;10"; "2024-01-01;20"; "2024-01-01;30"; "2024-01-02;5"].
Proof.
  apply (X15_session_reads_back "sensor.csv" "sd" 3 (Some ["date"; "value"])
           ["2024-01-01;10"; "2024-01-01;20"; "2024-01-01;30"; "2024-01-02;5"]
           card).
  - by eexists.
  - reflexivity.
  - reflexivity.
  - repeat constructor.
  - repeat constructor.
Defined.

(** X16.  An immediate write that the device refuses raises [OSError]
    and leaves the record in no known state: the logger object, buffer
    included, and every other path are as before the call, while the file
    has gained at most a start of the record and its line feed, nothing,
    a fragment or all of it. *)
Theorem X16_refused_immediate_write
    (lg : LoggerCSV) (w : world) (record : string) :
  writable w (file_path lg) = false →
  ∃ w' k, write_record record (lg, w) = (Raise OSError, (lg, w'))
          ∧ content w' (file_path lg)
            = content w (file_path lg) +:+ Str.take k (record +:+ Str.nl)
          ∧ ∀ q, q ≠ file_path lg → nodes w' !! q = nodes w !! q.
Proof.
  intros Hw. rewrite write_record_unfold.
  destruct (with_open_write_append_fails w (file_path lg) (record +:+ Str.nl) Hw)
    as (w' & k & Heq & Hc).
  rewrite Heq. cbn. exists w', k. split; [done |]. split; [done |].
  intros q Hq.
  pose proof (with_open_write_other w (file_path lg) (record +:+ Str.nl)
                q mode_a Hq) as Hother.
  by rewrite Heq in Hother.
Qed.

Lemma X16_refused_immediate_write_witness :
  ∃ w' k, write_record "critical"
            (with_buffer ["pending"] sensor_logger, worn_card)
          = (Raise OSError, (with_buffer ["pending"] sensor_logger, w'))
          ∧ content w' "sd/sensor.csv"
            = content worn_card "sd/sensor.csv"
              +:+ Str.take k ("critical" +:+ Str.nl)
          ∧ ∀ q, q ≠ "sd/sensor.csv" → nodes w' !! q = nodes worn_card !! q.
Proof.
  apply (X16_refused_immediate_write
           (with_buffer ["pending"] sensor_logger) worn_card "critical").
  reflexivity.
Defined.

(** On the worn card, which lets five characters through, the refused
    immediate write of a record leaves its first five characters in the
    file, with no line feed after them. *)
Example refused_write_leaves_fragment :
  fst (write_record "critical" (sensor_logger, worn_card)) = Raise OSError
  ∧ content (snd (snd (write_record "critical" (sensor_logger, worn_card))))
      "sd/sensor.csv"
    = "criti".
Proof. split; reflexivity. Qed.
